(** * check-pricing-v2: availability and pricing of a booking request

    Shallow embedding of [src/app/api/check-pricing-v2/route.ts] (the [POST]
    handler) and the properties its specification states about it.

    Modelling conventions.
    - JavaScript numbers that the handler computes with (guest counts, amounts,
      minimum stays, night counts) are integers, [Z]; amounts are in minor
      units.  [0] is the only falsy number.
    - Objects used as dictionaries ([calendar.days], [dayPrice.prices],
      [dailyPrices]) are [gmap string _]; an absent key is [undefined].
    - Optional fields ([undefined]/[null]) are [option].
    - The handler is written in a small monad that records every collaborator
      call and every [console.log] line in order, and that carries the two
      ways a step can leave the straight-line code: [return NextResponse.json]
      and a thrown exception (caught by the single outer [catch]).
    - The modules the handler imports are not part of the handler; each is an
      interface (a class) and the handler is parametric in them.  Dates are
      valid [Date] objects. *)

From stdpp Require Import base strings gmap list pretty.

Local Open Scope string_scope.
Local Open Scope list_scope.
Local Open Scope Z_scope.

(** ** JavaScript values *)

(** [!x] is [negb (truthy x)]. *)
Definition truthyNumber (n : Z) : bool := negb (n =? 0).
Definition truthyString (s : string) : bool := negb (String.eqb s "").
Definition truthy {A} (t : A → bool) (o : option A) : bool :=
  match o with Some a => t a | None => false end.

(** [a || b] on an optional number: [a] when it is truthy, else [b]. *)
Definition orElse (a : option Z) (b : Z) : Z :=
  match a with
  | Some v => if truthyNumber v then v else b
  | None => b
  end.

(** A settled promise, or a call that may throw. *)
Inductive result (A : Type) : Type :=
| Fulfilled (a : A)
| Rejected (message : string).
Arguments Fulfilled {A} a.
Arguments Rejected {A} message.

(** [Promise.all] over results: the values in order, or a rejection. *)
Fixpoint promiseAll {A} (rs : list (result A)) : result (list A) :=
  match rs with
  | [] => Fulfilled []
  | Rejected m :: _ => Rejected m
  | Fulfilled a :: rs =>
      match promiseAll rs with
      | Fulfilled l => Fulfilled (a :: l)
      | Rejected m => Rejected m
      end
  end.

(** ** Imported modules *)

(** [Date] objects and the [date-fns] functions the handler uses. *)
Class DateFns := {
  Date : Type;
  parseISO : string → Date;
  (** [a < b] and [a >= b] on [Date] objects *)
  dateLt : Date → Date → bool;
  dateGe : Date → Date → bool;
  differenceInDays : Date → Date → Z;
  (** [format(d, 'yyyy-MM-dd')] *)
  format : Date → string;
  getFullYear : Date → Z;
  getMonth : Date → Z;
  getDate : Date → Z;
  (** [d.setDate(n)], as the date it leaves in [d] *)
  setDate : Date → Z → Date;
}.

(** [@/lib/pricing/price-calculation] *)
Class PriceCalculation := {
  LengthOfStayDiscount : Type;
  PricingDetails : Type;
  calculateBookingPrice :
    gmap string Z → Z → option (list LengthOfStayDiscount) → result PricingDetails;
}.

Section DataModel.
Context `{DateFns} `{PriceCalculation}.

Record PricingConfig := {
  lengthOfStayDiscounts : option (list LengthOfStayDiscount);
}.

Record Property := {
  baseOccupancy : Z;
  extraGuestFee : option Z;
  pricePerNight : option Z;
  defaultMinimumStay : option Z;
  cleaningFee : option Z;
  baseCurrency : string;
  pricingConfig : option PricingConfig;
}.

Record DayPrice := {
  basePrice : Z;
  prices : option (gmap string Z);
  minimumStay : option Z;
}.

Record PriceCalendar := {
  year : Z;
  month : Z;
  days : gmap string DayPrice;
}.

Record YearMonth := { ym_year : Z; ym_month : Z }.

Record AvailabilityResult := {
  isAvailable : bool;
  unavailableDates : list Date;
  source : string;
}.

(** The request body after [request.json()] and destructuring; a body
    that is not JSON is outside the model. *)
Record Body := {
  propertyId : option string;
  checkIn : option string;
  checkOut : option string;
  guests : option Z;
}.

(** [{ ...pricingDetails, dailyRates, currency }] *)
Record Pricing := {
  details : PricingDetails;
  dailyRates : gmap string Z;
  currency : string;
}.

Inductive ResponseBody :=
| ErrorBody (error : string)
| FailureBody (error details : string)
| UnavailableDatesBody (unavailable : list Date) (metaSource : string)
| MinimumStayBody (minimumStayField requiredNights : Z) (metaSource : string)
| AvailableBody (pricing : Pricing) (metaSource : string).

Record Response := { body : ResponseBody; status : Z }.

(** [NextResponse.json(body)] and [NextResponse.json(body, { status })] *)
Definition json (b : ResponseBody) : Response := {| body := b; status := 200 |}.
Definition jsonStatus (b : ResponseBody) (s : Z) : Response :=
  {| body := b; status := s |}.

(** The failure responses of the handler, under the names of the
    specification. *)
Definition MissingParameter : Response :=
  jsonStatus (ErrorBody "Missing required parameters") 400.
Definition PastCheckIn : Response :=
  jsonStatus (ErrorBody "Check-in date cannot be in the past") 400.
Definition InvalidDateRange : Response :=
  jsonStatus (ErrorBody "Check-out date must be after check-in date") 400.
Definition PriceDataUnavailable : Response :=
  jsonStatus (ErrorBody "Price information not available for the selected dates") 404.
Definition DayPriceUnavailable (dateStr : string) : Response :=
  jsonStatus (ErrorBody ("Price information not available for " +:+ dateStr)) 404.

(** The [available], [reason] and [meta.source] fields of a body. *)
Definition available (b : ResponseBody) : option bool :=
  match b with
  | UnavailableDatesBody _ _ | MinimumStayBody _ _ _ => Some false
  | AvailableBody _ _ => Some true
  | _ => None
  end.

Definition reason (b : ResponseBody) : option string :=
  match b with
  | UnavailableDatesBody _ _ => Some "unavailable_dates"
  | MinimumStayBody _ _ _ => Some "minimum_stay"
  | _ => None
  end.

Definition metaSourceOf (b : ResponseBody) : option string :=
  match b with
  | UnavailableDatesBody _ s | MinimumStayBody _ _ s | AvailableBody _ s => Some s
  | _ => None
  end.
End DataModel.

(** [@/lib/pricing/pricing-with-db] *)
Class PricingWithDb `{DateFns} `{PriceCalculation} := {
  getPropertyWithDb : string → result Property;
  getPriceCalendarWithDb : string → Z → Z → result (option PriceCalendar);
}.

(** [@/lib/pricing/price-calendar-generator] *)
Class PriceCalendarGenerator `{DateFns} := {
  getMonthsBetweenDates : Date → Date → result (list YearMonth);
}.

(** [@/lib/availability-service] *)
Class AvailabilityService `{DateFns} := {
  checkAvailabilityWithFlags : string → Date → Date → result AvailabilityResult;
}.

(** ** The handler *)

Section Handler.
Context `{DF : DateFns} `{PC : PriceCalculation}.
Context `{DB : !PricingWithDb} `{CG : !PriceCalendarGenerator}.
Context `{AV : !AvailabilityService}.

(** *** Observable steps *)

(** The [console.log] lines of the handler, with the values they print. *)
Inductive LogLine :=
| LogPropertyDetails (pid : string) (occupancy : Z) (fee price : option Z)
| LogUsingAvailabilityCollection
| LogCheckingAvailability
| LogAvailabilityResult (avail : bool) (src : string) (count : nat)
| LogGettingPriceCalendars
| LogCalculatingPricing (nights : Z) (from : string)
| LogCalculatingPrice (dateStr : string) (g : Z)
| LogUsingBasePrice (price : Z)
| LogCheckingSpecificPrice (g : Z) (found : option Z)
| LogFallbackCalculation (price extraGuests fee calculatedPrice : Z)
| LogMinimumStayValidation (nights minStay : Z) (meets : bool)
| LogFinalPricingResponse (g : Z) (p : Pricing) (src : string).

Inductive Event :=
| CallGetProperty (pid : string)
| CallCheckAvailability (pid : string) (checkInDate checkOutDate : Date)
| CallGetMonths (checkInDate checkOutDate : Date)
| CallGetPriceCalendar (pid : string) (y m : Z)
| CallCalculateBookingPrice
    (nightly : gmap string Z) (fee : Z) (discounts : option (list LengthOfStayDiscount))
| ConsoleLog (l : LogLine)
| ConsoleError (message : string).

(** *** Control flow *)

Inductive Outcome (A : Type) :=
| Next (a : A)
| Return (r : Response)
| Throw (message : string).
Arguments Next {A} a.
Arguments Return {A} r.
Arguments Throw {A} message.

Definition M (A : Type) : Type := list Event * Outcome A.

#[global] Instance M_ret : MRet M := λ A a, ([], Next a).
#[global] Instance M_bind : MBind M := λ A B f m,
  match m with
  | (t, Next a) => let '(t', o) := f a in (t ++ t', o)
  | (t, Return r) => (t, Return r)
  | (t, Throw e) => (t, Throw e)
  end.

Definition log (l : LogLine) : M unit := ([ConsoleLog l], Next ()).
Definition respond {A} (r : Response) : M A := ([], Return r).
Definition settle {A} (r : result A) : Outcome A :=
  match r with Fulfilled a => Next a | Rejected e => Throw e end.
(** [await f(args)]: the call is observed, then its result is used. *)
Definition call {A} (e : Event) (r : result A) : M A := ([e], settle r).

(** *** Lines 92-97: the calendars of the months, fetched together *)

Definition fetchCalendars (pid : string) (months : list YearMonth)
  : M (list (option PriceCalendar)) :=
  (map (λ ym, CallGetPriceCalendar pid (ym_year ym) (ym_month ym)) months,
   settle (promiseAll
     (map (λ ym, getPriceCalendarWithDb pid (ym_year ym) (ym_month ym)) months))).

(** [calendar === null] *)
Definition isNull {A} (o : option A) : bool :=
  match o with None => true | Some _ => false end.

(** *** Lines 115-164: one night *)

Record LoopState := {
  st_dailyPrices : gmap string Z;
  st_minimumStay : Z;
  st_currentDate : Date;
}.

(** Line 122: [calendars.find(c => c?.year === year && c?.month === month)] *)
Definition findCalendar (calendars : list (option PriceCalendar)) (y m : Z)
  : option PriceCalendar :=
  mjoin (find (λ c : option PriceCalendar,
                 match c with
                 | Some c => (year c =? y) && (month c =? m)
                 | None => false
                 end) calendars).

(** Lines 117-131: the day entry of a date, when calendar and day exist. *)
Definition dayPriceOf (calendars : list (option PriceCalendar)) (d : Date)
  : option DayPrice :=
  let y := getFullYear d in
  let m := getMonth d + 1 in
  let day := pretty (getDate d) in
  calendar ← findCalendar calendars y m;
  days calendar !! day.

(** Lines 136-155: the amount stored in [dailyPrices[dateStr]]. *)
Definition nightlyPrice (property : Property) (g : Z) (dayPrice : DayPrice) : M Z :=
  if g <=? baseOccupancy property then
    log (LogUsingBasePrice (basePrice dayPrice));;
    mret (basePrice dayPrice)
  else
    let occupancyPrice := prices dayPrice ≫= (.!! pretty g) in
    log (LogCheckingSpecificPrice g
           (if truthy truthyNumber occupancyPrice then occupancyPrice else None));;
    let fallback : M Z :=
      let extraGuests := g - baseOccupancy property in
      let fee := orElse (extraGuestFee property) 0 in
      let calculatedPrice := basePrice dayPrice + extraGuests * fee in
      log (LogFallbackCalculation (basePrice dayPrice) extraGuests fee calculatedPrice);;
      mret calculatedPrice in
    match occupancyPrice with
    | Some p => if truthyNumber p then mret p else fallback
    | None => fallback
    end.

(** Lines 157-160: a truthy per-day [minimumStay] above the running value
    replaces it. *)
Definition raiseMinimumStay (perDay : option Z) (minStay : Z) : Z :=
  match perDay with
  | Some m => if truthyNumber m && (m >? minStay) then m else minStay
  | None => minStay
  end.

(** The body of the [for] loop. *)
Definition nightStep (property : Property) (g : Z)
    (calendars : list (option PriceCalendar)) (st : LoopState) : M LoopState :=
  let currentDate := st_currentDate st in
  let dateStr := format currentDate in
  match dayPriceOf calendars currentDate with
  | None =>
      respond (jsonStatus
        (ErrorBody ("Price information not available for " +:+ dateStr)) 404)
  | Some dayPrice =>
      log (LogCalculatingPrice dateStr g);;
      price ← nightlyPrice property g dayPrice;
      let dailyPrices := <[dateStr := price]> (st_dailyPrices st) in
      (* Check minimum stay for all nights - use the highest value found *)
      let minStay := raiseMinimumStay (minimumStay dayPrice) (st_minimumStay st) in
      (* Move to next day *)
      mret {| st_dailyPrices := dailyPrices;
              st_minimumStay := minStay;
              st_currentDate := setDate currentDate (getDate currentDate + 1) |}
  end.

(** [for (let night = 0; night < nights; night++)], with the iterations
    that remain as the counter. *)
Fixpoint nightLoop (property : Property) (g : Z)
    (calendars : list (option PriceCalendar)) (remaining : nat) (st : LoopState)
  : M LoopState :=
  match remaining with
  | O => mret st
  | S remaining =>
      st ← nightStep property g calendars st;
      nightLoop property g calendars remaining st
  end.

(** Lines 108-112: the state in which the loop is entered. *)
Definition initialState (property : Property) (checkInDate : Date) : LoopState :=
  {| st_dailyPrices := ∅;
     st_minimumStay := default 1 (defaultMinimumStay property);
     st_currentDate := checkInDate |}.

(** *** Lines 15-212: the [try] block *)

Definition tryBlock (today : Date) (request : Body) : M Empty_set :=
  (* Validate required parameters *)
  match propertyId request, checkIn request, checkOut request, guests request with
  | Some pid, Some ci, Some co, Some g =>
    if negb (truthyString pid) || negb (truthyString ci)
       || negb (truthyString co) || negb (truthyNumber g)
    then respond (jsonStatus (ErrorBody "Missing required parameters") 400)
    else
    (* Parse dates *)
    let checkInDate := parseISO ci in
    let checkOutDate := parseISO co in
    (* Validate past dates *)
    if dateLt checkInDate today
    then respond (jsonStatus (ErrorBody "Check-in date cannot be in the past") 400)
    else
    (* Validate date range *)
    if dateGe checkInDate checkOutDate
    then respond (jsonStatus (ErrorBody "Check-out date must be after check-in date") 400)
    else
    (* Get property details *)
    property ← call (CallGetProperty pid) (getPropertyWithDb pid);
    log (LogPropertyDetails pid (baseOccupancy property)
           (extraGuestFee property) (pricePerNight property));;
    log LogUsingAvailabilityCollection;;
    (* Get number of nights *)
    let nights := differenceInDays checkOutDate checkInDate in
    log LogCheckingAvailability;;
    availabilityResult ←
      call (CallCheckAvailability pid checkInDate checkOutDate)
           (checkAvailabilityWithFlags pid checkInDate checkOutDate);
    log (LogAvailabilityResult (isAvailable availabilityResult)
           (source availabilityResult)
           (length (unavailableDates availabilityResult)));;
    (* If dates are not available, return early *)
    if negb (isAvailable availabilityResult)
    then respond (json (UnavailableDatesBody
                          (unavailableDates availabilityResult)
                          (source availabilityResult)))
    else
    log LogGettingPriceCalendars;;
    months ← call (CallGetMonths checkInDate checkOutDate)
                  (getMonthsBetweenDates checkInDate checkOutDate);
    calendars ← fetchCalendars pid months;
    (* Check if any calendars are missing *)
    if existsb isNull calendars
    then respond (jsonStatus
           (ErrorBody "Price information not available for the selected dates") 404)
    else
    (* Calculate pricing for each date *)
    let st0 := initialState property checkInDate in
    log (LogCalculatingPricing nights (format checkInDate));;
    st ← nightLoop property g calendars (Z.to_nat nights) st0;
    let dailyPrices := st_dailyPrices st in
    let minStay := st_minimumStay st in
    (* Check if minimum stay requirement is met *)
    log (LogMinimumStayValidation nights minStay (nights >=? minStay));;
    let meetsMinimumStay := nights >=? minStay in
    if negb meetsMinimumStay
    then respond (json (MinimumStayBody minStay minStay (source availabilityResult)))
    else
    (* Calculate booking price with any applicable discounts *)
    let fee := orElse (cleaningFee property) 0 in
    let discounts := pricingConfig property ≫= lengthOfStayDiscounts in
    pricingDetails ← call (CallCalculateBookingPrice dailyPrices fee discounts)
                          (calculateBookingPrice dailyPrices fee discounts);
    (* Final response with metadata *)
    let finalPricing := {| details := pricingDetails;
                           dailyRates := dailyPrices;
                           currency := baseCurrency property |} in
    log (LogFinalPricingResponse g finalPricing (source availabilityResult));;
    respond (json (AvailableBody finalPricing (source availabilityResult)))
  | _, _, _, _ =>
    respond (jsonStatus (ErrorBody "Missing required parameters") 400)
  end.

(** *** Lines 14-223: [try { ... } catch (error) { ... }] *)

Definition POST (today : Date) (request : Body) : list Event * Response :=
  match tryBlock today request with
  | (t, Next e) => match e with end
  | (t, Return r) => (t, r)
  | (t, Throw message) =>
      (t ++ [ConsoleError message],
       jsonStatus (FailureBody "Failed to check pricing" message) 500)
  end.

(** *** Reading a run *)

(** The values [currentDate] takes in [n] iterations that start at [d]. *)
Fixpoint nightDates (n : nat) (d : Date) : list Date :=
  match n with
  | O => []
  | S n => d :: nightDates n (setDate d (getDate d + 1))
  end.

(** The dates for which a trace shows a nightly price being resolved, the
    calendars it shows being fetched and the aggregator calls it shows. *)
Definition resolvedDates (t : list Event) : list string :=
  omap (λ e, match e with
             | ConsoleLog (LogCalculatingPrice dateStr _) => Some dateStr
             | _ => None
             end) t.

Definition calendarFetches (t : list Event) : list (Z * Z) :=
  omap (λ e, match e with
             | CallGetPriceCalendar _ y m => Some (y, m)
             | _ => None
             end) t.

Definition aggregatorCalls (t : list Event) : list (gmap string Z) :=
  omap (λ e, match e with
             | CallCalculateBookingPrice nightly _ _ => Some nightly
             | _ => None
             end) t.

(** The per-night [minimumStay] values of the dates that have a day entry
    carrying one. *)
Definition minimumStays (calendars : list (option PriceCalendar))
    (dates : list Date) : list Z :=
  omap (λ d, dayPriceOf calendars d ≫= minimumStay) dates.

(** The largest of a seed and a list of values. *)
Definition maximumOf (seed : Z) (values : list Z) : Z := foldr Z.max seed values.

(** A trace without price resolution, calendar fetch or aggregator call. *)
Definition quiet (t : list Event) : Prop :=
  resolvedDates t = [] ∧ aggregatorCalls t = [] ∧ calendarFetches t = [].

(** The loop as a relation: the dates it goes through, one resolved night
    after the other, from the state it starts in to the state it ends in. *)
Inductive Nights (property : Property) (g : Z)
    (calendars : list (option PriceCalendar))
  : LoopState → list Date → LoopState → Prop :=
| nights_nil st : Nights property g calendars st [] st
| nights_cons st dayPrice tp p ds st' :
    dayPriceOf calendars (st_currentDate st) = Some dayPrice →
    nightlyPrice property g dayPrice = (tp, Next p) →
    Nights property g calendars
      {| st_dailyPrices := <[format (st_currentDate st) := p]> (st_dailyPrices st);
         st_minimumStay := raiseMinimumStay (minimumStay dayPrice) (st_minimumStay st);
         st_currentDate := setDate (st_currentDate st) (getDate (st_currentDate st) + 1) |}
      ds st' →
    Nights property g calendars st (st_currentDate st :: ds) st'.

(** The steps up to the answer of the availability service, the steps that
    fetch the calendars, and the steps up to the entry of the loop. *)
Definition checkedTrace (pid : string) (checkInDate checkOutDate : Date)
    (property : Property) (availabilityResult : AvailabilityResult)
  : list Event :=
  [CallGetProperty pid;
   ConsoleLog (LogPropertyDetails pid (baseOccupancy property)
                 (extraGuestFee property) (pricePerNight property));
   ConsoleLog LogUsingAvailabilityCollection;
   ConsoleLog LogCheckingAvailability;
   CallCheckAvailability pid checkInDate checkOutDate;
   ConsoleLog (LogAvailabilityResult (isAvailable availabilityResult)
                 (source availabilityResult)
                 (length (unavailableDates availabilityResult)))].

Definition fetchedTrace (pid : string) (checkInDate checkOutDate : Date)
    (months : list YearMonth) : list Event :=
  [ConsoleLog LogGettingPriceCalendars; CallGetMonths checkInDate checkOutDate]
  ++ map (λ ym, CallGetPriceCalendar pid (ym_year ym) (ym_month ym)) months.

Definition pricingTrace (pid ci co : string) (property : Property)
    (availabilityResult : AvailabilityResult) (months : list YearMonth)
  : list Event :=
  checkedTrace pid (parseISO ci) (parseISO co) property availabilityResult
  ++ fetchedTrace pid (parseISO ci) (parseISO co) months
  ++ [ConsoleLog (LogCalculatingPricing
                    (differenceInDays (parseISO co) (parseISO ci))
                    (format (parseISO ci)))].

(** *** How far a request gets *)

(** All four fields are present and truthy. *)
Definition present (request : Body) (pid ci co : string) (g : Z) : Prop :=
  propertyId request = Some pid ∧ checkIn request = Some ci
  ∧ checkOut request = Some co ∧ guests request = Some g
  ∧ truthyString pid = true ∧ truthyString ci = true
  ∧ truthyString co = true ∧ truthyNumber g = true.

(** The request passes the three validations. *)
Definition valid (today : Date) (request : Body) (pid ci co : string) (g : Z)
  : Prop :=
  present request pid ci co g
  ∧ dateLt (parseISO ci) today = false
  ∧ dateGe (parseISO ci) (parseISO co) = false.

(** The property is found and the availability service answers. *)
Definition checked (today : Date) (request : Body) (pid ci co : string) (g : Z)
    (property : Property) (availabilityResult : AvailabilityResult) : Prop :=
  valid today request pid ci co g
  ∧ getPropertyWithDb pid = Fulfilled property
  ∧ checkAvailabilityWithFlags pid (parseISO ci) (parseISO co)
    = Fulfilled availabilityResult.

(** The range is available and every month calendar is fetched. *)
Definition fetched (today : Date) (request : Body) (pid ci co : string) (g : Z)
    (property : Property) (availabilityResult : AvailabilityResult)
    (months : list YearMonth) (calendars : list (option PriceCalendar)) : Prop :=
  checked today request pid ci co g property availabilityResult
  ∧ isAvailable availabilityResult = true
  ∧ getMonthsBetweenDates (parseISO ci) (parseISO co) = Fulfilled months
  ∧ promiseAll (map (λ ym, getPriceCalendarWithDb pid (ym_year ym) (ym_month ym))
                    months) = Fulfilled calendars.
(** *** Failures *)

(** The error messages a trace shows being logged by the [catch] block. *)
Definition loggedErrors (t : list Event) : list string :=
  omap (λ e, match e with ConsoleError m => Some m | _ => None end) t.

(** The answer of the [catch] block. *)
Definition InternalFailure (details : string) : Response :=
  jsonStatus (FailureBody "Failed to check pricing" details) 500.
End Handler.

Arguments Next {DF PC A} a.
Arguments Return {DF PC A} r.
Arguments Throw {DF PC A} message.

(** ** In-memory collaborators

    Deterministic stand-ins for the imported modules, used to run the handler
    on concrete requests: civil dates for [Date], tables for the database, a
    list of blocked dates for the availability service, and an aggregator
    without discounts. *)

Module InMemory.

(** *** Civil dates *)

Record Civil := { c_year : Z; c_month : Z; c_day : Z }.

Definition isLeap (y : Z) : bool :=
  ((y mod 4 =? 0) && negb (y mod 100 =? 0)) || (y mod 400 =? 0).

Definition daysInMonth (y m : Z) : Z :=
  if m =? 2 then (if isLeap y then 29 else 28)
  else if (m =? 4) || (m =? 6) || (m =? 9) || (m =? 11) then 30
  else 31.

(** Days since 1970-01-01 of a civil date. *)
Definition daysFromCivil (d : Civil) : Z :=
  let y := if c_month d <=? 2 then c_year d - 1 else c_year d in
  let era := y / 400 in
  let yoe := y - era * 400 in
  let mp := if c_month d >? 2 then c_month d - 3 else c_month d + 9 in
  let doy := (153 * mp + 2) / 5 + c_day d - 1 in
  let doe := yoe * 365 + yoe / 4 - yoe / 100 + doy in
  era * 146097 + doe - 719468.

Definition civilLt (a b : Civil) : bool :=
  (c_year a <? c_year b)
  || ((c_year a =? c_year b)
      && ((c_month a <? c_month b)
          || ((c_month a =? c_month b) && (c_day a <? c_day b)))).

Definition digitOf (a : Ascii.ascii) : option Z :=
  let n := Z.of_nat (Ascii.nat_of_ascii a) in
  if (48 <=? n) && (n <=? 57) then Some (n - 48) else None.

Fixpoint numberOf (acc : Z) (s : string) : option Z :=
  match s with
  | EmptyString => Some acc
  | String a s => d ← digitOf a; numberOf (10 * acc + d) s
  end.

(** ["yyyy-MM-dd"]; any other text gives the date of year 0. *)
Definition parseCivil (s : string) : Civil :=
  let field := λ i n, default 0 (numberOf 0 (String.substring i n s)) in
  if (String.length s =? 10)%nat
  then {| c_year := field 0%nat 4%nat;
          c_month := field 5%nat 2%nat;
          c_day := field 8%nat 2%nat |}
  else {| c_year := 0; c_month := 1; c_day := 1 |}.

Definition pad (width : nat) (n : Z) : string :=
  let s := pretty n in
  String.concat "" (replicate (width - String.length s) "0") +:+ s.

Definition formatCivil (d : Civil) : string :=
  pad 4 (c_year d) +:+ "-" +:+ pad 2 (c_month d) +:+ "-" +:+ pad 2 (c_day d).

(** Day [n] of the month of [y]-[m], carried into the neighbouring months
    when [n] is outside the month. *)
Fixpoint normalise (fuel : nat) (y m n : Z) : Civil :=
  match fuel with
  | O => {| c_year := y; c_month := m; c_day := n |}
  | S fuel =>
      if n <? 1 then
        let '(y', m') := if m =? 1 then (y - 1, 12) else (y, m - 1) in
        normalise fuel y' m' (n + daysInMonth y' m')
      else if n >? daysInMonth y m then
        let '(y', m') := if m =? 12 then (y + 1, 1) else (y, m + 1) in
        normalise fuel y' m' (n - daysInMonth y m)
      else {| c_year := y; c_month := m; c_day := n |}
  end.

#[export] Instance civilDates : DateFns := {|
  Date := Civil;
  parseISO := parseCivil;
  dateLt := civilLt;
  dateGe := λ a b, negb (civilLt a b);
  differenceInDays := λ a b, daysFromCivil a - daysFromCivil b;
  format := formatCivil;
  getFullYear := c_year;
  getMonth := λ d, c_month d - 1;
  getDate := c_day;
  setDate := λ d n, normalise (S (Z.to_nat (Z.abs n))) (c_year d) (c_month d) n;
|}.

(** *** Aggregator: nightly amounts plus cleaning fee, no discounts *)

Record Totals := {
  subtotal : Z;
  accommodationTotal : Z;
  total : Z;
  numberOfNights : nat;
}.

#[export] Instance aggregator : PriceCalculation := {|
  LengthOfStayDiscount := Empty_set;
  PricingDetails := Totals;
  calculateBookingPrice := λ nightly fee _,
    let acc := map_fold (λ _ p s, p + s) 0 nightly in
    Fulfilled {| subtotal := acc + fee; accommodationTotal := acc;
                 total := acc + fee; numberOfNights := size nightly |};
|}.

(** *** Database: a table of properties and a list of month calendars *)

Definition database (properties : gmap string Property)
    (calendars : list PriceCalendar) : PricingWithDb := {|
  getPropertyWithDb := λ pid,
    match properties !! pid with
    | Some p => Fulfilled p
    | None => Rejected "Property not found"
    end;
  getPriceCalendarWithDb := λ _ y m,
    Fulfilled (find (λ c, (year c =? y) && (month c =? m)) calendars);
|}.

(** *** Months from the month of check-in to the month of check-out *)

Fixpoint monthsFrom (count : nat) (y m : Z) : list YearMonth :=
  match count with
  | O => []
  | S count =>
      {| ym_year := y; ym_month := m |}
      :: (if m =? 12 then monthsFrom count (y + 1) 1 else monthsFrom count y (m + 1))
  end.

#[export] Instance monthGenerator : PriceCalendarGenerator := {|
  getMonthsBetweenDates := λ a b,
    Fulfilled (monthsFrom
      (Z.to_nat (12 * (c_year b - c_year a) + (c_month b - c_month a) + 1))
      (c_year a) (c_month a));
|}.

(** *** Availability: the blocked dates that fall in the range *)

Definition availability (tag : string) (blocked : list Civil)
  : AvailabilityService := {|
  checkAvailabilityWithFlags := λ _ a b,
    let hit := filter (λ d, negb (civilLt d a) && civilLt d b) blocked in
    Fulfilled {| isAvailable := match hit with [] => true | _ => false end;
                 unavailableDates := hit;
                 source := tag |};
|}.

(** *** Test data *)

Definition day (price : Z) (overrides : option (gmap string Z))
    (minStay : option Z) : DayPrice :=
  {| basePrice := price; prices := overrides; minimumStay := minStay |}.

Definition villa : Property := {|
  baseOccupancy := 2;
  extraGuestFee := Some 10;
  pricePerNight := Some 100;
  defaultMinimumStay := None;
  cleaningFee := Some 20;
  baseCurrency := "EUR";
  pricingConfig := None;
|}.

Definition properties : gmap string Property := {[ "villa" := villa ]}.

Definition request (ci co : string) (g : Z) : Body :=
  {| propertyId := Some "villa"; checkIn := Some ci; checkOut := Some co;
     guests := Some g |}.

Definition today : Civil := {| c_year := 2030; c_month := 1; c_day := 1 |}.

(** January 2030: the 10th plain, the 11th with overrides for two and
    three guests, the 12th with an override of 0 for three guests, the
    13th with a minimum stay of three nights, the 14th missing. *)
Definition january : PriceCalendar := {|
  year := 2030;
  month := 1;
  days := {[ "10" := day 100 None None;
             "11" := day 100 (Some {[ "2" := 90; "3" := 150 ]}) None;
             "12" := day 100 (Some {[ "3" := 0 ]}) None;
             "13" := day 100 None (Some 3);
             "15" := day 100 None None ]};
|}.

(** A blocked date, and the answer of the availability service for a free
    range. *)
Definition blocked : list Date :=
  [ {| c_year := 2030; c_month := 1; c_day := 11 |} ].

Definition free : AvailabilityResult :=
  {| isAvailable := true; unavailableDates := []; source := "availability" |}.

(** The [pricing] of a positive response and its [dailyRates]. *)
Definition pricingOf (r : Response) : option Pricing :=
  match body r with
  | AvailableBody pricing _ => Some pricing
  | _ => None
  end.

Definition dailyRatesOf (r : Response) : option (gmap string Z) :=
  dailyRates <$> pricingOf r.

(** The handler over a list of calendars and blocked dates. *)
Definition run (calendars : list PriceCalendar) (blocked : list Civil)
    (request : Body) : list Event * Response :=
  POST (DB := database properties calendars)
       (AV := availability "availability" blocked) today request.

(** January 2030 without any day, and a request that lacks its guests. *)
Definition emptyJanuary : PriceCalendar :=
  {| year := 2030; month := 1; days := ∅ |}.

Definition noGuests : Body :=
  {| propertyId := Some "villa"; checkIn := Some "2030-01-10";
     checkOut := Some "2030-01-12"; guests := Some 0 |}.

(** A database and an aggregator that throw. *)
Definition brokenDatabase : PricingWithDb := {|
  getPropertyWithDb := λ _, Rejected "connection lost";
  getPriceCalendarWithDb := λ _ _ _, Rejected "connection lost";
|}.


Definition brokenAvailability : AvailabilityService := {|
  checkAvailabilityWithFlags := λ _ _ _, Rejected "service down";
|}.

End InMemory.

(** ** In-memory dates with a time of day

    A second stand-in for [Date]: a civil date and the minutes since
    midnight, for requests whose check-in and check-out carry a time. *)

Module Timed.
Import InMemory.

Record Stamp := { s_day : Civil; s_minute : Z }.

Definition minutesOf (a : Stamp) : Z := daysFromCivil (s_day a) * 1440 + s_minute a.

(** ["yyyy-MM-dd"] or ["yyyy-MM-ddTHH:mm"] *)
Definition parseStamp (s : string) : Stamp :=
  let field := λ i n, default 0 (numberOf 0 (String.substring i n s)) in
  {| s_day := parseCivil (String.substring 0 10 s);
     s_minute := if (String.length s =? 16)%nat
                 then field 11%nat 2%nat * 60 + field 14%nat 2%nat else 0 |}.

(** [differenceInDays] counts full days, towards zero. *)
Definition stamps : DateFns := {|
  Date := Stamp;
  parseISO := parseStamp;
  dateLt := λ a b, minutesOf a <? minutesOf b;
  dateGe := λ a b, minutesOf a >=? minutesOf b;
  differenceInDays := λ a b, (minutesOf a - minutesOf b) `quot` 1440;
  format := λ a, formatCivil (s_day a);
  getFullYear := λ a, c_year (s_day a);
  getMonth := λ a, c_month (s_day a) - 1;
  getDate := λ a, c_day (s_day a);
  setDate := λ a n,
    {| s_day := normalise (S (Z.to_nat (Z.abs n)))
                  (c_year (s_day a)) (c_month (s_day a)) n;
       s_minute := s_minute a |};
|}.

Definition stampDatabase (properties : gmap string Property)
    (calendars : list PriceCalendar) : @PricingWithDb stamps aggregator :=
  @Build_PricingWithDb stamps aggregator
    (getPropertyWithDb (PricingWithDb := database properties calendars))
    (getPriceCalendarWithDb (PricingWithDb := database properties calendars)).

Definition stampMonths : @PriceCalendarGenerator stamps :=
  @Build_PriceCalendarGenerator stamps
    (λ a b : Stamp,
       getMonthsBetweenDates (PriceCalendarGenerator := monthGenerator)
         (s_day a) (s_day b)).

Definition stampFree : @AvailabilityResult stamps :=
  @Build_AvailabilityResult stamps true [] "availability".

Definition stampAvailability : @AvailabilityService stamps :=
  @Build_AvailabilityService stamps (λ _ _ _, Fulfilled stampFree).

Definition midnight : Stamp := {| s_day := today; s_minute := 0 |}.

End Timed.

(** ** An aggregator that throws *)

Module Failing.
Import InMemory.

Definition overflow : PriceCalculation := {|
  LengthOfStayDiscount := Empty_set;
  PricingDetails := Totals;
  calculateBookingPrice := λ _ _ _, Rejected "overflow";
|}.

Definition house : @Property overflow := {|
  baseOccupancy := 2;
  extraGuestFee := Some 10;
  pricePerNight := Some 100;
  defaultMinimumStay := None;
  cleaningFee := Some 20;
  baseCurrency := "EUR";
  pricingConfig := None;
|}.

Definition houseDatabase : @PricingWithDb civilDates overflow :=
  @Build_PricingWithDb civilDates overflow
    (λ _, Fulfilled house)
    (getPriceCalendarWithDb (PricingWithDb := database properties [january])).

End Failing.

(** ** Properties *)

Section Properties.
Context `{DF : DateFns} `{PC : PriceCalculation}.
Context `{DB : !PricingWithDb} `{CG : !PriceCalendarGenerator}.
Context `{AV : !AvailabilityService}.
Implicit Types (property : Property) (g : Z) (dayPrice : DayPrice).
Implicit Types (calendars : list (option PriceCalendar)) (st : LoopState).
Implicit Types (t : list Event) (d : Date) (request : Body).
Implicit Types (availabilityResult : AvailabilityResult).

(** *** The price of one night *)

Lemma nightlyPrice_base property g dayPrice :
  g ≤ baseOccupancy property →
  nightlyPrice property g dayPrice
  = ([ConsoleLog (LogUsingBasePrice (basePrice dayPrice))], Next (basePrice dayPrice)).
Proof.
  intros Hle. unfold nightlyPrice.
  destruct (Z.leb_spec g (baseOccupancy property)); [reflexivity | lia].
Qed.

Lemma nightlyPrice_override property g dayPrice v :
  baseOccupancy property < g →
  prices dayPrice ≫= (.!! pretty g) = Some v →
  v ≠ 0 →
  nightlyPrice property g dayPrice
  = ([ConsoleLog (LogCheckingSpecificPrice g (Some v))], Next v).
Proof.
  intros Hgt Hv Hnz. unfold nightlyPrice.
  destruct (Z.leb_spec g (baseOccupancy property)); [lia|].
  rewrite Hv. cbn. unfold truthyNumber.
  destruct (Z.eqb_spec v 0); [done|]. reflexivity.
Qed.

Lemma orElse_zero (fee : option Z) : orElse fee 0 = default 0 fee.
Proof.
  destruct fee as [v|]; [|done]. cbn. unfold truthyNumber.
  by destruct (Z.eqb_spec v 0).
Qed.

Lemma nightlyPrice_fallback property g dayPrice :
  baseOccupancy property < g →
  prices dayPrice ≫= (.!! pretty g) = None
  ∨ prices dayPrice ≫= (.!! pretty g) = Some 0 →
  let fee := default 0 (extraGuestFee property) in
  let calculatedPrice := basePrice dayPrice + (g - baseOccupancy property) * fee in
  nightlyPrice property g dayPrice
  = ([ConsoleLog (LogCheckingSpecificPrice g None);
      ConsoleLog (LogFallbackCalculation (basePrice dayPrice)
                    (g - baseOccupancy property) fee calculatedPrice)],
     Next calculatedPrice).
Proof.
  intros Hgt Hv. unfold nightlyPrice.
  destruct (Z.leb_spec g (baseOccupancy property)); [lia|].
  destruct Hv as [-> | ->]; cbn; by rewrite orElse_zero.
Qed.

Lemma nightlyPrice_returns property g dayPrice :
  ∃ t p, nightlyPrice property g dayPrice = (t, Next p) ∧ quiet t.
Proof.
  unfold nightlyPrice, quiet.
  destruct (g <=? baseOccupancy property); [by eexists _, _|].
  destruct (prices dayPrice ≫= _) as [p|]; [destruct (truthyNumber p) eqn:E|];
    cbn; rewrite ?E; by eexists _, _.
Qed.

(** *** One iteration *)

Lemma nightStep_resolved property g calendars st dayPrice tp p :
  dayPriceOf calendars (st_currentDate st) = Some dayPrice →
  nightlyPrice property g dayPrice = (tp, Next p) →
  nightStep property g calendars st
  = (ConsoleLog (LogCalculatingPrice (format (st_currentDate st)) g) :: tp,
     Next {| st_dailyPrices := <[format (st_currentDate st) := p]> (st_dailyPrices st);
             st_minimumStay :=
               raiseMinimumStay (minimumStay dayPrice) (st_minimumStay st);
             st_currentDate :=
               setDate (st_currentDate st) (getDate (st_currentDate st) + 1) |}).
Proof.
  intros Hd Hp. unfold nightStep. rewrite Hd. cbn. rewrite Hp. cbn.
  by rewrite app_nil_r.
Qed.

Lemma nightStep_missing property g calendars st :
  dayPriceOf calendars (st_currentDate st) = None →
  nightStep property g calendars st
  = ([], Return (DayPriceUnavailable (format (st_currentDate st)))).
Proof. intros Hd. unfold nightStep. by rewrite Hd. Qed.

(** *** Traces *)

Lemma resolvedDates_app t1 t2 :
  resolvedDates (t1 ++ t2) = resolvedDates t1 ++ resolvedDates t2.
Proof. apply omap_app. Qed.

Lemma aggregatorCalls_app t1 t2 :
  aggregatorCalls (t1 ++ t2) = aggregatorCalls t1 ++ aggregatorCalls t2.
Proof. apply omap_app. Qed.

(** *** The loop *)

Lemma nightLoop_Next property g calendars n st t st' :
  nightLoop property g calendars n st = (t, Next st') →
  Nights property g calendars st (nightDates n (st_currentDate st)) st'
  ∧ resolvedDates t = format <$> nightDates n (st_currentDate st)
  ∧ aggregatorCalls t = [] ∧ calendarFetches t = [].
Proof.
  revert st t. induction n as [|n IH]; intros st t; cbn.
  - intros [= <- <-]. split; [constructor | done].
  - destruct (dayPriceOf calendars (st_currentDate st)) as [dayPrice|] eqn:Hd.
    + destruct (nightlyPrice_returns property g dayPrice)
        as (tp & p & Hp & Hq1 & Hq2 & Hq3).
      rewrite (nightStep_resolved _ _ _ _ _ _ _ Hd Hp). cbn.
      destruct (nightLoop _ _ _ n _) as [t2 o] eqn:Hn.
      intros [= <- ->]. apply IH in Hn as (HN & Hr & Ha & Hc).
      split; [by econstructor|].
      unfold resolvedDates, aggregatorCalls, calendarFetches in *. cbn in *.
      by rewrite !omap_app, Hq1, Hq2, Hq3, Hr, Ha, Hc.
    + rewrite (nightStep_missing _ _ _ _ Hd). cbn. discriminate.
Qed.

Lemma nightLoop_complete property g calendars n st :
  Forall (λ d, is_Some (dayPriceOf calendars d)) (nightDates n (st_currentDate st)) →
  ∃ t st', nightLoop property g calendars n st = (t, Next st').
Proof.
  revert st. induction n as [|n IH]; intros st Hall; cbn in *.
  - by eexists _, _.
  - apply Forall_cons in Hall as [[dayPrice Hd] Hall].
    destruct (nightlyPrice_returns property g dayPrice) as (tp & p & Hp & _).
    rewrite (nightStep_resolved _ _ _ _ _ _ _ Hd Hp). cbn.
    edestruct IH as (t & st' & ->); [|by eexists _, _]. done.
Qed.

Lemma nightLoop_missing property g calendars n st ds1 d ds2 :
  nightDates n (st_currentDate st) = ds1 ++ d :: ds2 →
  Forall (λ d, is_Some (dayPriceOf calendars d)) ds1 →
  dayPriceOf calendars d = None →
  ∃ t, nightLoop property g calendars n st
       = (t, Return (DayPriceUnavailable (format d)))
       ∧ resolvedDates t = format <$> ds1
       ∧ aggregatorCalls t = [].
Proof.
  revert st ds1. induction n as [|n IH]; intros st ds1 Hds Hall Hnone; cbn in *.
  - by destruct ds1.
  - destruct ds1 as [|d1 ds1]; simplify_eq/=.
    + rewrite (nightStep_missing _ _ _ _ Hnone). by eexists.
    + apply Forall_cons in Hall as [[dayPrice Hd] Hall].
      destruct (nightlyPrice_returns property g dayPrice)
        as (tp & p & Hp & Hq1 & Hq2 & _).
      rewrite (nightStep_resolved _ _ _ _ _ _ _ Hd Hp). cbn.
      match goal with
      | |- context [nightLoop _ _ _ n ?s] =>
          destruct (IH s ds1) as (t & -> & Hr & Ha); [done..|]
      end.
      eexists; split; [done|].
      unfold resolvedDates, aggregatorCalls in *. cbn.
      by rewrite !omap_app, Hq1, Hq2, Hr, Ha.
Qed.

Lemma nightLoop_outcome property g calendars n st :
  ∃ t, (∃ st', nightLoop property g calendars n st = (t, Next st'))
       ∨ (∃ dateStr, nightLoop property g calendars n st
                     = (t, Return (DayPriceUnavailable dateStr))).
Proof.
  revert st. induction n as [|n IH]; intros st; cbn.
  - eexists; left; by eexists.
  - destruct (dayPriceOf calendars (st_currentDate st)) as [dayPrice|] eqn:Hd.
    + destruct (nightlyPrice_returns property g dayPrice) as (tp & p & Hp & _).
      rewrite (nightStep_resolved _ _ _ _ _ _ _ Hd Hp). cbn.
      edestruct IH as (t & [[st' ->] | [s ->]]); eexists; [left|right]; by eexists.
    + rewrite (nightStep_missing _ _ _ _ Hd). eexists; right; by eexists.
Qed.

(** *** The nightly price map *)

Lemma Nights_frame property g calendars st ds st' (key : string) :
  Nights property g calendars st ds st' →
  key ∉ format <$> ds →
  st_dailyPrices st' !! key = st_dailyPrices st !! key.
Proof.
  induction 1 as [|st dayPrice tp p ds st' Hd Hp HN IH]; [done|].
  rewrite fmap_cons, not_elem_of_cons. intros [Hne Hnin].
  rewrite IH by done. cbn. by rewrite lookup_insert_ne.
Qed.

Lemma Nights_prices property g calendars st ds st' :
  Nights property g calendars st ds st' →
  NoDup (format <$> ds) →
  ∀ d, d ∈ ds →
    ∃ dayPrice tp p,
      dayPriceOf calendars d = Some dayPrice
      ∧ nightlyPrice property g dayPrice = (tp, Next p)
      ∧ st_dailyPrices st' !! format d = Some p.
Proof.
  induction 1 as [|st dayPrice tp p ds st' Hd Hp HN IH]; intros Hnd d' Hin.
  - by apply elem_of_nil in Hin.
  - rewrite fmap_cons in Hnd. apply NoDup_cons in Hnd as [Hnin Hnd].
    destruct (decide (format d' = format (st_currentDate st))) as [Heq|Hne].
    + exists dayPrice, tp, p.
      assert (d' = st_currentDate st) as ->.
      { apply elem_of_cons in Hin as [->|Hin]; [done|].
        destruct Hnin. rewrite <- Heq. by apply list_elem_of_fmap_2. }
      split_and!; [done..|].
      rewrite (Nights_frame _ _ _ _ _ _ _ HN Hnin). cbn.
      by rewrite lookup_insert_eq.
    + apply elem_of_cons in Hin as [->|Hin]; [done|]. by apply IH.
Qed.

(** The entry of a night in the map the loop ends with is the amount the
    price rule gives for the day entry of that night. *)
Lemma nightLoop_price property g calendars n st t st' d dayPrice tp p :
  nightLoop property g calendars n st = (t, Next st') →
  NoDup (format <$> nightDates n (st_currentDate st)) →
  d ∈ nightDates n (st_currentDate st) →
  dayPriceOf calendars d = Some dayPrice →
  nightlyPrice property g dayPrice = (tp, Next p) →
  st_dailyPrices st' !! format d = Some p.
Proof.
  intros Hloop Hnd Hin Hd Hp.
  apply nightLoop_Next in Hloop as [HN _].
  destruct (Nights_prices _ _ _ _ _ _ HN Hnd d Hin) as (dp & tp' & p' & Hd' & Hp' & ->).
  congruence.
Qed.

(** *** The minimum stay *)

Lemma maximumOf_seed s v vs :
  maximumOf (Z.max s v) vs = Z.max v (maximumOf s vs).
Proof. unfold maximumOf. induction vs as [|w vs IH]; cbn; lia. Qed.

Lemma maximumOf_bounds s vs :
  s ≤ maximumOf s vs
  ∧ (∀ v, v ∈ vs → v ≤ maximumOf s vs)
  ∧ (maximumOf s vs = s ∨ maximumOf s vs ∈ vs).
Proof.
  unfold maximumOf. induction vs as [|w vs (IH1 & IH2 & IH3)]; cbn.
  - split_and!; [lia | by intros v ?%elem_of_nil | by left].
  - split_and!; [lia | |].
    + intros v [->|Hin]%elem_of_cons; [lia|]. specialize (IH2 v Hin). lia.
    + destruct (Z.max_spec w (foldr Z.max s vs)) as [[_ ->]|[_ ->]].
      * destruct IH3 as [->|Hin]; [by left|]. right. by apply elem_of_cons; right.
      * right. by apply elem_of_cons; left.
Qed.

Lemma raiseMinimumStay_truthy perDay s :
  raiseMinimumStay perDay s
  = match perDay with
    | Some m => if decide (m ≠ 0) then Z.max s m else s
    | None => s
    end.
Proof.
  destruct perDay as [m|]; [|done]. unfold raiseMinimumStay, truthyNumber.
  destruct (decide (m ≠ 0)), (Z.eqb_spec m 0), (Z.gtb_spec m s); cbn; lia.
Qed.

Lemma maximumOf_truthy s vs :
  0 ≤ s → maximumOf s (filter (λ m, m ≠ 0) vs) = maximumOf s vs.
Proof.
  intros Hs. induction vs as [|v vs IH]; [done|].
  pose proof (proj1 (maximumOf_bounds s vs)) as Hle.
  rewrite filter_cons. unfold maximumOf in *.
  destruct (decide (v ≠ 0)) as [|Hz]; cbn; rewrite IH; lia.
Qed.

Lemma Nights_minimumStay_truthy property g calendars st ds st' :
  Nights property g calendars st ds st' →
  st_minimumStay st'
  = maximumOf (st_minimumStay st) (filter (λ m, m ≠ 0) (minimumStays calendars ds)).
Proof.
  induction 1 as [|st dayPrice tp p ds st' Hd Hp HN IH]; [done|].
  cbn in IH. rewrite raiseMinimumStay_truthy in IH.
  unfold minimumStays in *. cbn. rewrite Hd. cbn.
  destruct (minimumStay dayPrice) as [m|]; cbn; [|done].
  destruct (decide (m ≠ 0)); [|done].
  rewrite IH. apply maximumOf_seed.
Qed.

(** *** The handler, stage by stage *)

Lemma existsb_isNull calendars : existsb isNull calendars = true ↔ None ∈ calendars.
Proof.
  rewrite existsb_exists. split.
  - intros ([c|] & Hin & Hc); [done|]. by apply list_elem_of_In.
  - intros Hin. exists None. split; [by apply list_elem_of_In | done].
Qed.

Lemma existsb_isNull_false calendars :
  None ∉ calendars → existsb isNull calendars = false.
Proof.
  intros Hnot. destruct (existsb isNull calendars) eqn:E; [|done].
  by apply existsb_isNull in E.
Qed.

Ltac enter H :=
  unfold fetched, checked, valid, present in H;
  destruct_and? H;
  unfold POST, tryBlock, pricingTrace, checkedTrace, fetchedTrace;
  repeat (cbn; match goal with E : _ = _ |- _ => rewrite E end);
  cbn.

Lemma POST_invalid_range today request pid ci co g :
  present request pid ci co g →
  dateLt (parseISO ci) today = false →
  dateGe (parseISO ci) (parseISO co) = true →
  POST today request = ([], InvalidDateRange).
Proof. intros H Hpast Hrange. enter H. reflexivity. Qed.

Lemma POST_unavailable today request pid ci co g property availabilityResult :
  checked today request pid ci co g property availabilityResult →
  isAvailable availabilityResult = false →
  POST today request
  = (checkedTrace pid (parseISO ci) (parseISO co) property availabilityResult,
     json (UnavailableDatesBody (unavailableDates availabilityResult)
             (source availabilityResult))).
Proof. intros H Hno. enter H. reflexivity. Qed.

Lemma POST_calendar_missing today request pid ci co g property
    availabilityResult months calendars :
  fetched today request pid ci co g property availabilityResult months calendars →
  existsb isNull calendars = true →
  POST today request
  = (checkedTrace pid (parseISO ci) (parseISO co) property availabilityResult
     ++ fetchedTrace pid (parseISO ci) (parseISO co) months,
     PriceDataUnavailable).
Proof. intros H Hnull. enter H. by rewrite app_nil_r. Qed.

Lemma POST_night_missing today request pid ci co g property
    availabilityResult months calendars tl r :
  fetched today request pid ci co g property availabilityResult months calendars →
  existsb isNull calendars = false →
  nightLoop property g calendars
    (Z.to_nat (differenceInDays (parseISO co) (parseISO ci)))
    (initialState property (parseISO ci)) = (tl, Return r) →
  POST today request
  = (pricingTrace pid ci co property availabilityResult months ++ tl, r).
Proof. intros H Hnull Hloop. enter H. by rewrite <- !app_assoc. Qed.

Lemma POST_minimum_stay today request pid ci co g property
    availabilityResult months calendars tl st :
  fetched today request pid ci co g property availabilityResult months calendars →
  existsb isNull calendars = false →
  nightLoop property g calendars
    (Z.to_nat (differenceInDays (parseISO co) (parseISO ci)))
    (initialState property (parseISO ci)) = (tl, Next st) →
  differenceInDays (parseISO co) (parseISO ci) < st_minimumStay st →
  POST today request
  = (pricingTrace pid ci co property availabilityResult months ++ tl
     ++ [ConsoleLog (LogMinimumStayValidation
                       (differenceInDays (parseISO co) (parseISO ci))
                       (st_minimumStay st) false)],
     json (MinimumStayBody (st_minimumStay st) (st_minimumStay st)
             (source availabilityResult))).
Proof.
  intros H Hnull Hloop Hlt. enter H.
  destruct (Z.geb_spec (differenceInDays (parseISO co) (parseISO ci))
              (st_minimumStay st)); [lia|].
  cbn. by rewrite <- !app_assoc.
Qed.

Lemma POST_available today request pid ci co g property
    availabilityResult months calendars tl st pricingDetails :
  fetched today request pid ci co g property availabilityResult months calendars →
  existsb isNull calendars = false →
  nightLoop property g calendars
    (Z.to_nat (differenceInDays (parseISO co) (parseISO ci)))
    (initialState property (parseISO ci)) = (tl, Next st) →
  st_minimumStay st ≤ differenceInDays (parseISO co) (parseISO ci) →
  calculateBookingPrice (st_dailyPrices st) (orElse (cleaningFee property) 0)
    (pricingConfig property ≫= lengthOfStayDiscounts) = Fulfilled pricingDetails →
  let pricing := {| details := pricingDetails;
                    dailyRates := st_dailyPrices st;
                    currency := baseCurrency property |} in
  POST today request
  = (pricingTrace pid ci co property availabilityResult months ++ tl
     ++ [ConsoleLog (LogMinimumStayValidation
                       (differenceInDays (parseISO co) (parseISO ci))
                       (st_minimumStay st) true);
         CallCalculateBookingPrice (st_dailyPrices st)
           (orElse (cleaningFee property) 0)
           (pricingConfig property ≫= lengthOfStayDiscounts);
         ConsoleLog (LogFinalPricingResponse g pricing (source availabilityResult))],
     json (AvailableBody pricing (source availabilityResult))).
Proof.
  intros H Hnull Hloop Hle Hcalc. enter H.
  destruct (Z.geb_spec (differenceInDays (parseISO co) (parseISO ci))
              (st_minimumStay st)); [|lia].
  cbn. by rewrite <- !app_assoc.
Qed.

Lemma fetchedTrace_quiet pid checkInDate checkOutDate property
    availabilityResult months :
  resolvedDates
    (checkedTrace pid checkInDate checkOutDate property availabilityResult
     ++ fetchedTrace pid checkInDate checkOutDate months) = [].
Proof.
  unfold checkedTrace, fetchedTrace, resolvedDates. cbn. by induction months.
Qed.

Lemma pricingTrace_quiet pid ci co property availabilityResult months :
  resolvedDates (pricingTrace pid ci co property availabilityResult months) = []
  ∧ aggregatorCalls (pricingTrace pid ci co property availabilityResult months) = [].
Proof.
  unfold pricingTrace, checkedTrace, fetchedTrace, resolvedDates, aggregatorCalls.
  cbn. rewrite !omap_app. cbn.
  split; rewrite app_nil_r; by induction months.
Qed.

(** The [dailyRates] of a positive response are the map the loop ended
    with, over the nights from check-in. *)
Lemma POST_dailyRates today request pid ci co g property
    availabilityResult months calendars t pricing src :
  fetched today request pid ci co g property availabilityResult months calendars →
  POST today request = (t, json (AvailableBody pricing src)) →
  ∃ tl st,
    nightLoop property g calendars
      (Z.to_nat (differenceInDays (parseISO co) (parseISO ci)))
      (initialState property (parseISO ci)) = (tl, Next st)
    ∧ dailyRates pricing = st_dailyPrices st
    ∧ src = source availabilityResult.
Proof.
  intros H Hrun.
  destruct (existsb isNull calendars) eqn:Hnull.
  { rewrite (POST_calendar_missing _ _ _ _ _ _ _ _ _ _ H Hnull) in Hrun.
    discriminate. }
  destruct (nightLoop_outcome property g calendars
              (Z.to_nat (differenceInDays (parseISO co) (parseISO ci)))
              (initialState property (parseISO ci)))
    as (tl & [[st Hloop] | [dateStr Hloop]]).
  2:{ rewrite (POST_night_missing _ _ _ _ _ _ _ _ _ _ _ _ H Hnull Hloop) in Hrun.
      discriminate. }
  destruct (Z.lt_ge_cases (differenceInDays (parseISO co) (parseISO ci))
              (st_minimumStay st)) as [Hlt|Hge].
  { rewrite (POST_minimum_stay _ _ _ _ _ _ _ _ _ _ _ _ H Hnull Hloop Hlt) in Hrun.
    discriminate. }
  destruct (calculateBookingPrice (st_dailyPrices st)
              (orElse (cleaningFee property) 0)
              (pricingConfig property ≫= lengthOfStayDiscounts))
    as [pricingDetails|e] eqn:Hcalc.
  - rewrite (POST_available _ _ _ _ _ _ _ _ _ _ _ _ _ H Hnull Hloop Hge Hcalc) in Hrun.
    injection Hrun as _ <- <-. by exists tl, st.
  - exfalso. revert Hrun. enter H.
    destruct (Z.geb_spec (differenceInDays (parseISO co) (parseISO ci))
                (st_minimumStay st)); [|lia].
    cbn. discriminate.
Qed.

(** The rule of one night, the map of the whole loop and the [dailyRates]
    of the response, together. *)
Lemma night_priced property g dayPrice tp p :
  nightlyPrice property g dayPrice = (tp, Next p) →
  (nightlyPrice property g dayPrice).2 = Next p
  ∧ (∀ calendars n st t st' d,
       nightLoop property g calendars n st = (t, Next st') →
       NoDup (format <$> nightDates n (st_currentDate st)) →
       d ∈ nightDates n (st_currentDate st) →
       dayPriceOf calendars d = Some dayPrice →
       st_dailyPrices st' !! format d = Some p)
  ∧ (∀ today request pid ci co availabilityResult months calendars t pricing src d,
       fetched today request pid ci co g property availabilityResult months calendars →
       POST today request = (t, json (AvailableBody pricing src)) →
       NoDup (format <$> nightDates
                (Z.to_nat (differenceInDays (parseISO co) (parseISO ci))) (parseISO ci)) →
       d ∈ nightDates
             (Z.to_nat (differenceInDays (parseISO co) (parseISO ci))) (parseISO ci) →
       dayPriceOf calendars d = Some dayPrice →
       dailyRates pricing !! format d = Some p).
Proof.
  intros Hp. split_and!; [by rewrite Hp| |].
  - intros calendars n st t st' d Hloop Hnd Hin Hd.
    by eapply nightLoop_price.
  - intros today request pid ci co availabilityResult months calendars t pricing
      src d H Hrun Hnd Hin Hd.
    destruct (POST_dailyRates _ _ _ _ _ _ _ _ _ _ _ _ _ H Hrun)
      as (tl & st & Hloop & -> & _).
    by eapply nightLoop_price.
Qed.

(** *** Validation *)

(** C5 (as amended): for every request whose four fields are present and
    truthy and whose check-in is not before today, [checkIn ≥ checkOut]
    gives the [InvalidDateRange] failure, whatever the property and the
    number of guests; no collaborator is called. *)
Theorem invalid_date_range_after_validation today request pid ci co g :
  present request pid ci co g →
  dateLt (parseISO ci) today = false →
  dateGe (parseISO ci) (parseISO co) = true →
  POST today request = ([], InvalidDateRange).
Proof. apply POST_invalid_range. Qed.

(** *** Availability *)

(** C3: when the availability service reports [isAvailable = false], the
    response is the [unavailable_dates] outcome with the service's date
    list and source tag; the run fetches no calendar, resolves no nightly
    price and calls no aggregator, and the outcome is not a positive one. *)
Theorem unavailable_short_circuit today request pid ci co g property
    availabilityResult :
  checked today request pid ci co g property availabilityResult →
  isAvailable availabilityResult = false →
  ∃ t r,
    POST today request = (t, r)
    ∧ r = json (UnavailableDatesBody (unavailableDates availabilityResult)
                  (source availabilityResult))
    ∧ available (body r) = Some false
    ∧ reason (body r) = Some "unavailable_dates"
    ∧ calendarFetches t = [] ∧ resolvedDates t = [] ∧ aggregatorCalls t = [].
Proof.
  intros H Hno. eexists _, _. split; [exact (POST_unavailable _ _ _ _ _ _ _ _ H Hno)|].
  by split_and!.
Qed.

(** *** Calendars *)

(** C8: once the calendars of the months are fetched, a missing (null)
    calendar gives the range-level [PriceDataUnavailable] failure before
    any nightly price is resolved; with every calendar present, the first
    night without a day entry gives the [DayPriceUnavailable] failure that
    names its date, after the nights before it were resolved. *)
Theorem price_data_unavailable today request pid ci co g property
    availabilityResult months calendars :
  fetched today request pid ci co g property availabilityResult months calendars →
  (None ∈ calendars →
     ∃ t, POST today request = (t, PriceDataUnavailable) ∧ resolvedDates t = [])
  ∧ (None ∉ calendars →
     ∀ ds1 d ds2,
       nightDates (Z.to_nat (differenceInDays (parseISO co) (parseISO ci)))
         (parseISO ci) = ds1 ++ d :: ds2 →
       Forall (λ d, is_Some (dayPriceOf calendars d)) ds1 →
       dayPriceOf calendars d = None →
       ∃ t, POST today request = (t, DayPriceUnavailable (format d))
            ∧ resolvedDates t = format <$> ds1).
Proof.
  intros H. split.
  - intros Hnull%existsb_isNull. eexists.
    split; [exact (POST_calendar_missing _ _ _ _ _ _ _ _ _ _ H Hnull)|].
    apply fetchedTrace_quiet.
  - intros Hnull%existsb_isNull_false ds1 d ds2 Hds Hall Hnone.
    destruct (nightLoop_missing property g calendars _
                (initialState property (parseISO ci)) ds1 d ds2 Hds Hall Hnone)
      as (tl & Hloop & Hr & _).
    eexists. split; [exact (POST_night_missing _ _ _ _ _ _ _ _ _ _ _ _ H Hnull Hloop)|].
    rewrite resolvedDates_app, Hr.
    by rewrite (proj1 (pricingTrace_quiet _ _ _ _ _ _)).
Qed.

(** *** Nightly prices *)

(** C6: with [guests ≤ baseOccupancy] the price of a night is the
    [basePrice] of its day entry, whatever overrides the entry has and
    whatever the extra-guest fee is; that is the amount the nightly price
    map holds for every such night once the loop has run, and the amount
    the [dailyRates] of a positive response hold for every such night of
    the requested range. *)
Theorem base_price_within_occupancy property g dayPrice :
  g ≤ baseOccupancy property →
  (nightlyPrice property g dayPrice).2 = Next (basePrice dayPrice)
  ∧ (∀ calendars n st t st' d,
       nightLoop property g calendars n st = (t, Next st') →
       NoDup (format <$> nightDates n (st_currentDate st)) →
       d ∈ nightDates n (st_currentDate st) →
       dayPriceOf calendars d = Some dayPrice →
       st_dailyPrices st' !! format d = Some (basePrice dayPrice))
  ∧ (∀ today request pid ci co availabilityResult months calendars t pricing src d,
       fetched today request pid ci co g property availabilityResult months calendars →
       POST today request = (t, json (AvailableBody pricing src)) →
       NoDup (format <$> nightDates
                (Z.to_nat (differenceInDays (parseISO co) (parseISO ci))) (parseISO ci)) →
       d ∈ nightDates
             (Z.to_nat (differenceInDays (parseISO co) (parseISO ci))) (parseISO ci) →
       dayPriceOf calendars d = Some dayPrice →
       dailyRates pricing !! format d = Some (basePrice dayPrice)).
Proof. intros Hle. eapply night_priced, nightlyPrice_base. exact Hle. Qed.

(** C1 (as amended): with [guests > baseOccupancy] and an entry for the
    guest count in [dayPrice.prices] whose value is not 0, the price of the
    night is that value, whatever the formula would give; that is the
    amount the nightly price map and the [dailyRates] of a positive
    response hold for every such night of the requested range. *)
Theorem exact_override_applies property g dayPrice v :
  baseOccupancy property < g →
  prices dayPrice ≫= (.!! pretty g) = Some v →
  v ≠ 0 →
  (nightlyPrice property g dayPrice).2 = Next v
  ∧ (∀ calendars n st t st' d,
       nightLoop property g calendars n st = (t, Next st') →
       NoDup (format <$> nightDates n (st_currentDate st)) →
       d ∈ nightDates n (st_currentDate st) →
       dayPriceOf calendars d = Some dayPrice →
       st_dailyPrices st' !! format d = Some v)
  ∧ (∀ today request pid ci co availabilityResult months calendars t pricing src d,
       fetched today request pid ci co g property availabilityResult months calendars →
       POST today request = (t, json (AvailableBody pricing src)) →
       NoDup (format <$> nightDates
                (Z.to_nat (differenceInDays (parseISO co) (parseISO ci))) (parseISO ci)) →
       d ∈ nightDates
             (Z.to_nat (differenceInDays (parseISO co) (parseISO ci))) (parseISO ci) →
       dayPriceOf calendars d = Some dayPrice →
       dailyRates pricing !! format d = Some v).
Proof.
  intros Hgt Hv Hnz. eapply night_priced, nightlyPrice_override; eassumption.
Qed.

(** C7: with [guests > baseOccupancy] and no entry for the guest count in
    [dayPrice.prices], the price of the night is
    [basePrice + (guests - baseOccupancy) * extraGuestFee], the fee being 0
    when the property has none; that is the amount the nightly price map and
    the [dailyRates] of a positive response hold for every such night of
    the requested range. *)
Theorem extra_guest_fee_fallback property g dayPrice :
  baseOccupancy property < g →
  prices dayPrice ≫= (.!! pretty g) = None →
  (nightlyPrice property g dayPrice).2
  = Next (basePrice dayPrice
          + (g - baseOccupancy property) * default 0 (extraGuestFee property))
  ∧ (∀ calendars n st t st' d,
       nightLoop property g calendars n st = (t, Next st') →
       NoDup (format <$> nightDates n (st_currentDate st)) →
       d ∈ nightDates n (st_currentDate st) →
       dayPriceOf calendars d = Some dayPrice →
       st_dailyPrices st' !! format d = Some (basePrice dayPrice
               + (g - baseOccupancy property)
                 * default 0 (extraGuestFee property)))
  ∧ (∀ today request pid ci co availabilityResult months calendars t pricing src d,
       fetched today request pid ci co g property availabilityResult months calendars →
       POST today request = (t, json (AvailableBody pricing src)) →
       NoDup (format <$> nightDates
                (Z.to_nat (differenceInDays (parseISO co) (parseISO ci))) (parseISO ci)) →
       d ∈ nightDates
             (Z.to_nat (differenceInDays (parseISO co) (parseISO ci))) (parseISO ci) →
       dayPriceOf calendars d = Some dayPrice →
       dailyRates pricing !! format d = Some (basePrice dayPrice
               + (g - baseOccupancy property)
                 * default 0 (extraGuestFee property))).
Proof.
  intros Hgt Hv. eapply night_priced, nightlyPrice_fallback; [exact Hgt|by left].
Qed.

(** C10: with [guests > baseOccupancy] and an entry for the guest count
    whose value is 0, the entry is not used: the price of the night is
    [basePrice + (guests - baseOccupancy) * extraGuestFee], in the nightly
    price map and in the [dailyRates] of a positive response. *)
Theorem zero_override_falls_through property g dayPrice :
  baseOccupancy property < g →
  prices dayPrice ≫= (.!! pretty g) = Some 0 →
  (nightlyPrice property g dayPrice).2
  = Next (basePrice dayPrice
          + (g - baseOccupancy property) * default 0 (extraGuestFee property))
  ∧ (∀ calendars n st t st' d,
       nightLoop property g calendars n st = (t, Next st') →
       NoDup (format <$> nightDates n (st_currentDate st)) →
       d ∈ nightDates n (st_currentDate st) →
       dayPriceOf calendars d = Some dayPrice →
       st_dailyPrices st' !! format d = Some (basePrice dayPrice
               + (g - baseOccupancy property)
                 * default 0 (extraGuestFee property)))
  ∧ (∀ today request pid ci co availabilityResult months calendars t pricing src d,
       fetched today request pid ci co g property availabilityResult months calendars →
       POST today request = (t, json (AvailableBody pricing src)) →
       NoDup (format <$> nightDates
                (Z.to_nat (differenceInDays (parseISO co) (parseISO ci))) (parseISO ci)) →
       d ∈ nightDates
             (Z.to_nat (differenceInDays (parseISO co) (parseISO ci))) (parseISO ci) →
       dayPriceOf calendars d = Some dayPrice →
       dailyRates pricing !! format d = Some (basePrice dayPrice
               + (g - baseOccupancy property)
                 * default 0 (extraGuestFee property))).
Proof.
  intros Hgt Hv. eapply night_priced, nightlyPrice_fallback; [exact Hgt|by right].
Qed.

(** *** Minimum stay *)

(** C2: when every night of the range has a day entry, the loop ends, and
    the minimum stay it ends with is the maximum of the seed
    ([defaultMinimumStay], 1 when absent) and the [minimumStay] values of
    all the nights that are not 0 (a 0 is falsy and is skipped); it is never
    below the seed.  With a seed that is not negative, as in the data model,
    it is the maximum of the seed and every per-night value: at least each
    of them, and one of them. *)
Theorem effective_minimum_stay_is_maximum property g calendars n checkInDate :
  Forall (λ d, is_Some (dayPriceOf calendars d)) (nightDates n checkInDate) →
  ∃ t st',
    nightLoop property g calendars n (initialState property checkInDate)
    = (t, Next st')
    ∧ st_minimumStay st'
      = maximumOf (default 1 (defaultMinimumStay property))
          (filter (λ m, m ≠ 0) (minimumStays calendars (nightDates n checkInDate)))
    ∧ default 1 (defaultMinimumStay property) ≤ st_minimumStay st'
    ∧ (0 ≤ default 1 (defaultMinimumStay property) →
       st_minimumStay st'
       = maximumOf (default 1 (defaultMinimumStay property))
           (minimumStays calendars (nightDates n checkInDate))
       ∧ (∀ m, m ∈ minimumStays calendars (nightDates n checkInDate) →
               m ≤ st_minimumStay st')
       ∧ (st_minimumStay st' = default 1 (defaultMinimumStay property)
          ∨ st_minimumStay st' ∈ minimumStays calendars (nightDates n checkInDate))).
Proof.
  intros Hall.
  destruct (nightLoop_complete property g calendars n
              (initialState property checkInDate) Hall) as (t & st' & Hloop).
  exists t, st'. split; [done|].
  apply nightLoop_Next in Hloop as [HN _].
  pose proof (Nights_minimumStay_truthy _ _ _ _ _ _ HN) as Hmax. cbn in Hmax.
  split; [done|]. split.
  - rewrite Hmax. apply (proj1 (maximumOf_bounds _ _)).
  - intros Hseed. rewrite Hmax, maximumOf_truthy by done.
    split; [done|]. apply (proj2 (maximumOf_bounds _ _)).
Qed.

(** C4: when the loop has resolved every night and the number of nights is
    below the minimum stay it ended with, the response is the
    [minimum_stay] outcome whose [minimumStay] and [requiredNights] are
    that value; the run resolved the price of every night before the check
    (its last step) and calls no aggregator. *)
Theorem minimum_stay_rejected today request pid ci co g property
    availabilityResult months calendars tl st :
  fetched today request pid ci co g property availabilityResult months calendars →
  None ∉ calendars →
  nightLoop property g calendars
    (Z.to_nat (differenceInDays (parseISO co) (parseISO ci)))
    (initialState property (parseISO ci)) = (tl, Next st) →
  differenceInDays (parseISO co) (parseISO ci) < st_minimumStay st →
  ∃ t,
    POST today request
    = (t, json (MinimumStayBody (st_minimumStay st) (st_minimumStay st)
                  (source availabilityResult)))
    ∧ reason (MinimumStayBody (st_minimumStay st) (st_minimumStay st)
                (source availabilityResult)) = Some "minimum_stay"
    ∧ resolvedDates t
      = format <$> nightDates
          (Z.to_nat (differenceInDays (parseISO co) (parseISO ci))) (parseISO ci)
    ∧ last t = Some (ConsoleLog (LogMinimumStayValidation
                                   (differenceInDays (parseISO co) (parseISO ci))
                                   (st_minimumStay st) false))
    ∧ aggregatorCalls t = [].
Proof.
  intros H Hnull%existsb_isNull_false Hloop Hlt.
  eexists. split; [exact (POST_minimum_stay _ _ _ _ _ _ _ _ _ _ _ _ H Hnull Hloop Hlt)|].
  destruct (nightLoop_Next _ _ _ _ _ _ _ Hloop) as (_ & Hr & Ha & _).
  destruct (pricingTrace_quiet pid ci co property availabilityResult months)
    as [Hpr Hpa].
  split_and!.
  - done.
  - rewrite !resolvedDates_app, Hpr, Hr. cbn. by rewrite app_nil_r.
  - by rewrite !app_assoc, last_snoc.
  - by rewrite !aggregatorCalls_app, Hpa, Ha.
Qed.

(** *** Provenance *)

(** C9: every response that is a business answer (unavailable dates,
    minimum stay, or pricing) comes from a run in which the availability
    service answered, and its [meta.source] is the [source] of that
    answer. *)
Theorem source_carried today request t r :
  POST today request = (t, r) →
  is_Some (available (body r)) →
  ∃ pid ci co g property availabilityResult,
    checked today request pid ci co g property availabilityResult
    ∧ metaSourceOf (body r) = Some (source availabilityResult).
Proof.
  unfold POST, tryBlock.
  destruct (propertyId request) as [pid|] eqn:Hpid; [|by intros [= <- <-] []].
  destruct (checkIn request) as [ci|] eqn:Hci; [|by intros [= <- <-] []].
  destruct (checkOut request) as [co|] eqn:Hco; [|by intros [= <- <-] []].
  destruct (guests request) as [g|] eqn:Hg; [|by intros [= <- <-] []].
  destruct (truthyString pid) eqn:Tpid; [|by intros [= <- <-] []].
  destruct (truthyString ci) eqn:Tci; [|by intros [= <- <-] []].
  destruct (truthyString co) eqn:Tco; [|by intros [= <- <-] []].
  destruct (truthyNumber g) eqn:Tg; [|by intros [= <- <-] []].
  cbn [negb orb].
  destruct (dateLt _ _) eqn:Hpast; [by intros [= <- <-] []|].
  destruct (dateGe _ _) eqn:Hrange; [by intros [= <- <-] []|].
  destruct (getPropertyWithDb pid) as [property|e] eqn:Hprop;
    [|by intros [= <- <-] []].
  destruct (checkAvailabilityWithFlags pid (parseISO ci) (parseISO co))
    as [availabilityResult|e] eqn:Hav; [|by intros [= <- <-] []].
  intros Hrun Hs.
  exists pid, ci, co, g, property, availabilityResult.
  split; [by repeat split|].
  revert Hrun Hs. cbn.
  destruct (isAvailable availabilityResult); cbn; [|by intros [= <- <-]].
  destruct (getMonthsBetweenDates _ _) as [months|e]; cbn;
    [|by intros [= <- <-] []].
  destruct (promiseAll _) as [calendars|e]; cbn; [|by intros [= <- <-] []].
  destruct (existsb isNull calendars); cbn; [by intros [= <- <-] []|].
  destruct (nightLoop_outcome property g calendars
              (Z.to_nat (differenceInDays (parseISO co) (parseISO ci)))
              (initialState property (parseISO ci)))
    as (tl & [[st ->] | [dateStr ->]]); cbn; [|by intros [= <- <-] []].
  destruct (_ >=? _); cbn; [|by intros [= <- <-]].
  destruct (calculateBookingPrice _ _ _); cbn; [|by intros [= <- <-] []].
  by intros [= <- <-].
Qed.
(** ** Further properties of the handler *)

Ltac step :=
  cbn;
  match goal with
  | |- context [propertyId ?r] => destruct (propertyId r) eqn:?
  | |- context [checkIn ?r] => destruct (checkIn r) eqn:?
  | |- context [checkOut ?r] => destruct (checkOut r) eqn:?
  | |- context [guests ?r] => destruct (guests r) eqn:?
  | |- context [truthyString ?a] => destruct (truthyString a) eqn:?
  | |- context [truthyNumber ?a] => destruct (truthyNumber a) eqn:?
  | |- context [dateLt ?a ?b] => destruct (dateLt a b) eqn:?
  | |- context [dateGe ?a ?b] => destruct (dateGe a b) eqn:?
  | |- context [getPropertyWithDb ?p] => destruct (getPropertyWithDb p) eqn:?
  | |- context [checkAvailabilityWithFlags ?p ?a ?b] =>
      destruct (checkAvailabilityWithFlags p a b) eqn:?
  | |- context [isAvailable ?a] => destruct (isAvailable a) eqn:?
  | |- context [getMonthsBetweenDates ?a ?b] =>
      destruct (getMonthsBetweenDates a b) eqn:?
  | |- context [promiseAll ?l] => destruct (promiseAll l) eqn:?
  | |- context [existsb isNull ?c] => destruct (existsb isNull c) eqn:?
  | |- context [nightLoop ?p ?g ?c ?n ?s] =>
      let tl := fresh "tl" in
      let st := fresh "st" in
      let Hloop := fresh "Hloop" in
      destruct (nightLoop_outcome p g c n s)
        as (tl & [[st Hloop] | [st Hloop]]);
      rewrite Hloop
  | |- context [?a >=? ?b] => destruct (Z.geb_spec a b)
  | |- context [calculateBookingPrice ?a ?b ?c] =>
      destruct (calculateBookingPrice a b c) eqn:?
  end.

Ltac paths := unfold POST, tryBlock, fetchCalendars, call; repeat step; cbn.


Ltac observe :=
  unfold resolvedDates, calendarFetches, aggregatorCalls, loggedErrors in *;
  repeat (cbn; rewrite ?omap_app).

(** *** Traces of the loop *)

Lemma nightlyPrice_trace property g dayPrice :
  ∃ t p, nightlyPrice property g dayPrice = (t, Next p)
         ∧ quiet t ∧ loggedErrors t = [].
Proof.
  unfold nightlyPrice, quiet.
  destruct (g <=? baseOccupancy property); [by eexists _, _|].
  destruct (prices dayPrice ≫= _) as [p|]; [destruct (truthyNumber p) eqn:E|];
    cbn; rewrite ?E; by eexists _, _.
Qed.

Lemma nightLoop_trace property g calendars n st :
  ∃ k, (k ≤ n)%nat
    ∧ resolvedDates (nightLoop property g calendars n st).1
      = format <$> take k (nightDates n (st_currentDate st))
    ∧ calendarFetches (nightLoop property g calendars n st).1 = []
    ∧ aggregatorCalls (nightLoop property g calendars n st).1 = []
    ∧ loggedErrors (nightLoop property g calendars n st).1 = [].
Proof.
  revert st. induction n as [|n IH]; intros st; cbn.
  - by exists 0%nat.
  - destruct (dayPriceOf calendars (st_currentDate st)) as [dayPrice|] eqn:Hd.
    + destruct (nightlyPrice_trace property g dayPrice)
        as (tp & p & Hp & (Hq1 & Hq2 & Hq3) & Hq4).
      rewrite (nightStep_resolved _ _ _ _ _ _ _ Hd Hp). cbn.
      match goal with
      | |- context [nightLoop _ _ _ n ?s] =>
          destruct (IH s) as (k & Hk & Hr & Hc & Ha & He);
          destruct (nightLoop property g calendars n s) as [t2 o]
      end.
      exists (S k). split; [lia|].
      unfold resolvedDates, calendarFetches, aggregatorCalls, loggedErrors in *.
      cbn in *. by rewrite !omap_app, Hq1, Hq2, Hq3, Hq4, Hr, Hc, Ha, He.
    + rewrite (nightStep_missing _ _ _ _ Hd). exists 0%nat. split; [lia|done].
Qed.

Lemma calendar_calls_trace (pid : string) (months : list YearMonth) :
  let t := map (λ ym, CallGetPriceCalendar pid (ym_year ym) (ym_month ym)) months in
  calendarFetches t = (λ ym, (ym_year ym, ym_month ym)) <$> months
  ∧ resolvedDates t = [] ∧ aggregatorCalls t = [] ∧ loggedErrors t = [].
Proof.
  cbn. unfold calendarFetches, resolvedDates, aggregatorCalls, loggedErrors.
  induction months as [|ym months (IH1 & IH2 & IH3 & IH4)]; [done|].
  cbn. by rewrite IH1.
Qed.




(** *** Validation *)


(** X1: a request that lacks one of the four fields, or has one that is
    falsy (an empty string, 0 guests), gets the [MissingParameter] failure
    and nothing is called or logged; a request with four truthy fields never
    gets that failure. *)
Theorem missing_parameter_exactly today request :
  (¬ (∃ pid ci co g, present request pid ci co g) →
     POST today request = ([], MissingParameter))
  ∧ ((∃ pid ci co g, present request pid ci co g) →
     (POST today request).2 ≠ MissingParameter).
Proof.
  split.
  - intros Hnot. paths; try reflexivity.
    all: destruct Hnot; eexists _, _, _, _; by repeat split.
  - intros (pid & ci & co & g & H). unfold present in H. destruct_and? H.
    paths; try discriminate; simplify_eq; congruence.
Qed.

(** X2: with four truthy fields, a check-in before today gets the
    [PastCheckIn] failure whatever the check-out is, and nothing is called
    or logged. *)
Theorem past_check_in_first today request pid ci co g :
  present request pid ci co g →
  dateLt (parseISO ci) today = true →
  POST today request = ([], PastCheckIn).
Proof. intros H Hpast. enter H. reflexivity. Qed.

(** *** Failures of the collaborators *)

(** X3: when the property lookup throws, the handler logs the error and
    answers 500 with the message as details; the availability service is
    not consulted. *)
Theorem property_lookup_failure today request pid ci co g e :
  valid today request pid ci co g →
  getPropertyWithDb pid = Rejected e →
  POST today request
  = ([CallGetProperty pid; ConsoleError e], InternalFailure e).
Proof. intros H Hprop. unfold valid in H. enter H. reflexivity. Qed.

(** X4: when the availability service throws, the handler answers 500 with
    the message as details, after the error was logged; no calendar is
    fetched, no night resolved and no aggregator called. *)
Theorem availability_failure today request pid ci co g property e :
  valid today request pid ci co g →
  getPropertyWithDb pid = Fulfilled property →
  checkAvailabilityWithFlags pid (parseISO ci) (parseISO co) = Rejected e →
  ∃ t, POST today request = (t, InternalFailure e)
       ∧ last t = Some (ConsoleError e)
       ∧ CallCheckAvailability pid (parseISO ci) (parseISO co) ∈ t
       ∧ calendarFetches t = [] ∧ resolvedDates t = [] ∧ aggregatorCalls t = [].
Proof.
  intros H Hprop Hav. unfold valid in H. enter H.
  eexists. split; [reflexivity|]. split_and!; try done.
  apply (list_elem_of_lookup_2 _ 4%nat). reflexivity.
Qed.


(** X6: when the aggregator throws, the handler answers 500 with its
    message although every night was resolved; the aggregator was called
    once, with the nightly price map. *)
Theorem aggregator_failure today request pid ci co g property
    availabilityResult months calendars tl st e :
  fetched today request pid ci co g property availabilityResult months calendars →
  None ∉ calendars →
  nightLoop property g calendars
    (Z.to_nat (differenceInDays (parseISO co) (parseISO ci)))
    (initialState property (parseISO ci)) = (tl, Next st) →
  st_minimumStay st ≤ differenceInDays (parseISO co) (parseISO ci) →
  calculateBookingPrice (st_dailyPrices st) (orElse (cleaningFee property) 0)
    (pricingConfig property ≫= lengthOfStayDiscounts) = Rejected e →
  ∃ t, POST today request = (t, InternalFailure e)
       ∧ last t = Some (ConsoleError e)
       ∧ aggregatorCalls t = [st_dailyPrices st]
       ∧ resolvedDates t
         = format <$> nightDates
             (Z.to_nat (differenceInDays (parseISO co) (parseISO ci))) (parseISO ci).
Proof.
  intros H Hnull%existsb_isNull_false Hloop Hle Hcalc.
  destruct (nightLoop_Next _ _ _ _ _ _ _ Hloop) as (_ & Hr & Ha & _).
  destruct (calendar_calls_trace pid months) as (_ & Hmr & Hma & _).
  enter H.
  destruct (Z.geb_spec (differenceInDays (parseISO co) (parseISO ci))
              (st_minimumStay st)); [|lia].
  cbn. eexists. split; [reflexivity|]. split_and!.
  - rewrite !app_comm_cons, !app_assoc. apply last_snoc.
  - observe. by rewrite Hma, Ha.
  - observe. rewrite Hmr, Hr. cbn. by rewrite !app_nil_r.
Qed.

(** *** Every response *)

(** X8: the status of a response is 200 exactly when its body has an
    [available] field (the three business answers); the other statuses are
    400, 404 and 500. *)
Theorem status_of_response today request :
  (status (POST today request).2 = 200
   ↔ is_Some (available (body (POST today request).2)))
  ∧ (status (POST today request).2 = 200 ∨ status (POST today request).2 = 400
     ∨ status (POST today request).2 = 404 ∨ status (POST today request).2 = 500).
Proof.
  paths; (split; [split; [try discriminate; by eexists | try done; by intros []]|]);
    auto.
Qed.

Lemma calendar_calls_errors (pid : string) (months : list YearMonth) :
  omap (λ e : Event, match e with ConsoleError m => Some m | _ => None end)
    (map (λ ym, CallGetPriceCalendar pid (ym_year ym) (ym_month ym)) months) = [].
Proof. by induction months. Qed.

Ltac loop_facts :=
  try match goal with
      | Hl : nightLoop ?p ?g ?c ?n ?s = _ |- _ =>
          let Ht := fresh "Ht" in
          pose proof (nightLoop_trace p g c n s) as Ht;
          rewrite Hl in Ht; cbn in Ht;
          destruct Ht as (?k & ?Hk & ?Hr & ?Hc & ?Ha & ?He)
      end.

(** X7: a run either ends in the 500 answer, with one error logged, as the
    last step, and its message as [details]; or its status is not 500 and no
    error is logged. *)
Theorem failure_is_logged today request :
  (∃ e, (POST today request).2 = InternalFailure e
        ∧ loggedErrors (POST today request).1 = [e]
        ∧ last (POST today request).1 = Some (ConsoleError e))
  ∨ (status (POST today request).2 ≠ 500
     ∧ loggedErrors (POST today request).1 = []).
Proof.
  paths; loop_facts.
  all: try (right; split; [discriminate|]).
  all: try (left; eexists; split; [reflexivity|]; split;
            [|first [done | by rewrite ?app_comm_cons, ?app_assoc, last_snoc]]).
  all: observe; rewrite ?calendar_calls_errors, ?He; done.
Qed.
Lemma calendar_calls_resolved (pid : string) (months : list YearMonth) :
  omap (λ e : Event, match e with
                     | ConsoleLog (LogCalculatingPrice dateStr _) => Some dateStr
                     | _ => None
                     end)
    (map (λ ym, CallGetPriceCalendar pid (ym_year ym) (ym_month ym)) months) = [].
Proof. by induction months. Qed.

Lemma calendar_calls_aggregator (pid : string) (months : list YearMonth) :
  omap (λ e : Event, match e with
                     | CallCalculateBookingPrice nightly _ _ => Some nightly
                     | _ => None
                     end)
    (map (λ ym, CallGetPriceCalendar pid (ym_year ym) (ym_month ym)) months) = [].
Proof. by induction months. Qed.

Lemma calendar_calls_fetches (pid : string) (months : list YearMonth) :
  omap (λ e : Event, match e with
                     | CallGetPriceCalendar _ y m => Some (y, m)
                     | _ => None
                     end)
    (map (λ ym, CallGetPriceCalendar pid (ym_year ym) (ym_month ym)) months)
  = (λ ym, (ym_year ym, ym_month ym)) <$> months.
Proof. induction months as [|ym months IH]; [done|]. cbn. by rewrite IH. Qed.

(** *** The nightly price map *)

Lemma Nights_dom property g calendars st ds st' :
  Nights property g calendars st ds st' →
  dom (st_dailyPrices st') = dom (st_dailyPrices st) ∪ list_to_set (format <$> ds).
Proof.
  induction 1 as [|st dayPrice tp p ds st' Hd Hp HN IH]; cbn.
  - by rewrite (right_id_L ∅ (∪)).
  - rewrite IH. cbn. rewrite dom_insert_L.
    by rewrite (comm_L (∪) {[_]}), <- (assoc_L (∪)).
Qed.

Lemma length_nightDates n d : length (nightDates n d) = n.
Proof. revert d. induction n as [|n IH]; intros d; cbn; [done|]. by rewrite IH. Qed.

(** X10: the keys of the [dailyRates] of a positive response are exactly
    the date strings of the nights from check-in; when those are distinct
    there is one entry per night. *)
Theorem daily_rates_keys today request pid ci co g property
    availabilityResult months calendars t pricing src :
  fetched today request pid ci co g property availabilityResult months calendars →
  POST today request = (t, json (AvailableBody pricing src)) →
  dom (dailyRates pricing)
  = list_to_set (format <$> nightDates
      (Z.to_nat (differenceInDays (parseISO co) (parseISO ci))) (parseISO ci))
  ∧ (NoDup (format <$> nightDates
       (Z.to_nat (differenceInDays (parseISO co) (parseISO ci))) (parseISO ci)) →
     size (dailyRates pricing)
     = Z.to_nat (differenceInDays (parseISO co) (parseISO ci))).
Proof.
  intros H Hrun.
  destruct (POST_dailyRates _ _ _ _ _ _ _ _ _ _ _ _ _ H Hrun)
    as (tl & st & Hloop & -> & _).
  apply nightLoop_Next in Hloop as (HN & _).
  apply Nights_dom in HN. cbn in HN. rewrite dom_empty_L, (left_id_L ∅ (∪)) in HN.
  split; [done|]. intros Hnd.
  rewrite <- size_dom, HN, size_list_to_set by done.
  by rewrite length_fmap, length_nightDates.
Qed.

(** X9: when the loop has resolved every night, the stay is long enough
    and the aggregator answers, the response is the positive one: it carries
    the aggregator's answer, the nightly price map as [dailyRates] and the
    property's [baseCurrency]; the aggregator was called once, with that map,
    the cleaning fee (0 when absent) and the discounts of the property. *)
Theorem priced_response today request pid ci co g property
    availabilityResult months calendars tl st pricingDetails :
  fetched today request pid ci co g property availabilityResult months calendars →
  None ∉ calendars →
  nightLoop property g calendars
    (Z.to_nat (differenceInDays (parseISO co) (parseISO ci)))
    (initialState property (parseISO ci)) = (tl, Next st) →
  st_minimumStay st ≤ differenceInDays (parseISO co) (parseISO ci) →
  calculateBookingPrice (st_dailyPrices st) (default 0 (cleaningFee property))
    (pricingConfig property ≫= lengthOfStayDiscounts) = Fulfilled pricingDetails →
  ∃ t,
    POST today request
    = (t, json (AvailableBody {| details := pricingDetails;
                                 dailyRates := st_dailyPrices st;
                                 currency := baseCurrency property |}
                  (source availabilityResult)))
    ∧ CallCalculateBookingPrice (st_dailyPrices st)
        (default 0 (cleaningFee property))
        (pricingConfig property ≫= lengthOfStayDiscounts) ∈ t
    ∧ aggregatorCalls t = [st_dailyPrices st]
    ∧ resolvedDates t
      = format <$> nightDates
          (Z.to_nat (differenceInDays (parseISO co) (parseISO ci))) (parseISO ci).
Proof.
  intros H Hnull%existsb_isNull_false Hloop Hle Hcalc.
  rewrite <- orElse_zero in *.
  eexists. split; [exact (POST_available _ _ _ _ _ _ _ _ _ _ _ _ _ H Hnull Hloop Hle Hcalc)|].
  destruct (nightLoop_Next _ _ _ _ _ _ _ Hloop) as (_ & Hr & Ha & _).
  destruct (pricingTrace_quiet pid ci co property availabilityResult months)
    as [Hpr Hpa].
  split_and!.
  - rewrite !elem_of_app. right. right. apply (list_elem_of_lookup_2 _ 1%nat). done.
  - by rewrite !aggregatorCalls_app, Hpa, Ha.
  - rewrite !resolvedDates_app, Hpr, Hr. cbn. by rewrite !app_nil_r.
Qed.

(** X11: a range that passes validation but spans no full day (check-out
    later on the day of check-in) runs the loop zero times: the calendars
    are fetched, no night is resolved, and with a seed above the number of
    nights the answer is [minimum_stay] with the seed. *)
Theorem no_full_day today request pid ci co g property
    availabilityResult months calendars :
  fetched today request pid ci co g property availabilityResult months calendars →
  None ∉ calendars →
  differenceInDays (parseISO co) (parseISO ci) ≤ 0 →
  differenceInDays (parseISO co) (parseISO ci)
  < default 1 (defaultMinimumStay property) →
  ∃ t,
    POST today request
    = (t, json (MinimumStayBody (default 1 (defaultMinimumStay property))
                  (default 1 (defaultMinimumStay property))
                  (source availabilityResult)))
    ∧ calendarFetches t = (λ ym, (ym_year ym, ym_month ym)) <$> months
    ∧ resolvedDates t = [] ∧ aggregatorCalls t = [].
Proof.
  intros H Hnull%existsb_isNull_false Hzero Hlt.
  assert (Z.to_nat (differenceInDays (parseISO co) (parseISO ci)) = 0%nat) as Hn
    by lia.
  assert (nightLoop property g calendars
            (Z.to_nat (differenceInDays (parseISO co) (parseISO ci)))
            (initialState property (parseISO ci))
          = ([], Next (initialState property (parseISO ci)))) as Hloop
    by (by rewrite Hn).
  eexists. split; [exact (POST_minimum_stay _ _ _ _ _ _ _ _ _ _ _ _ H Hnull Hloop Hlt)|].
  unfold pricingTrace, checkedTrace, fetchedTrace.
  split_and!; observe;
    by rewrite ?calendar_calls_fetches, ?calendar_calls_resolved,
         ?calendar_calls_aggregator, ?app_nil_r.
Qed.

(** X12: once the loop has resolved every night, the answer is
    [minimum_stay] exactly when the number of nights is below the minimum
    stay: a stay of exactly the minimum passes. *)
Theorem minimum_stay_decision today request pid ci co g property
    availabilityResult months calendars tl st :
  fetched today request pid ci co g property availabilityResult months calendars →
  None ∉ calendars →
  nightLoop property g calendars
    (Z.to_nat (differenceInDays (parseISO co) (parseISO ci)))
    (initialState property (parseISO ci)) = (tl, Next st) →
  reason (body (POST today request).2) = Some "minimum_stay"
  ↔ differenceInDays (parseISO co) (parseISO ci) < st_minimumStay st.
Proof.
  intros H Hnull%existsb_isNull_false Hloop. split.
  - intros Hreason.
    destruct (Z.lt_ge_cases (differenceInDays (parseISO co) (parseISO ci))
                (st_minimumStay st)) as [Hlt|Hge]; [done|].
    exfalso. revert Hreason. enter H.
    destruct (Z.geb_spec (differenceInDays (parseISO co) (parseISO ci))
                (st_minimumStay st)); [|lia].
    cbn. by destruct (calculateBookingPrice _ _ _).
  - intros Hlt. by rewrite (POST_minimum_stay _ _ _ _ _ _ _ _ _ _ _ _ H Hnull Hloop Hlt).
Qed.

Ltac paths_from H :=
  unfold fetched, checked, valid, present in H;
  destruct_and? H;
  unfold POST, tryBlock, fetchCalendars, call;
  repeat (cbn; match goal with E : _ = _ |- _ => rewrite E end);
  repeat step; cbn.

(** X13: whatever happens later in the run, the calendars fetched are those
    of the months given by [getMonthsBetweenDates], each once and in that
    order. *)
Theorem calendars_fetched_once today request pid ci co g property
    availabilityResult months :
  checked today request pid ci co g property availabilityResult →
  isAvailable availabilityResult = true →
  getMonthsBetweenDates (parseISO ci) (parseISO co) = Fulfilled months →
  calendarFetches (POST today request).1
  = (λ ym, (ym_year ym, ym_month ym)) <$> months.
Proof.
  intros H Havail Hmonths. paths_from H; loop_facts.
  all: observe; rewrite ?calendar_calls_fetches, ?Hc; cbn; by rewrite ?app_nil_r.
Qed.

(** X15: in every run the nights resolved are the first [k] nights from
    check-in, in order, for some [k] up to the number of nights; no other
    date is ever resolved. *)
Theorem nights_resolved_in_order today request pid ci co g :
  present request pid ci co g →
  ∃ k, (k ≤ Z.to_nat (differenceInDays (parseISO co) (parseISO ci)))%nat
    ∧ resolvedDates (POST today request).1
      = format <$> take k (nightDates
          (Z.to_nat (differenceInDays (parseISO co) (parseISO ci))) (parseISO ci)).
Proof.
  intros H. paths_from H; loop_facts.
  all: first
    [ exists k; split; [done|]; observe;
      rewrite ?calendar_calls_resolved, ?Hr; cbn; by rewrite ?app_nil_r
    | exists 0%nat; split; [lia|]; observe;
      by rewrite ?calendar_calls_resolved ].
Qed.

(** X16: the aggregator is never called on a partial map: when a run calls
    it, it calls it once, every night of the range was resolved before, and
    the keys of the map it gets are the date strings of all nights. *)
Theorem aggregator_gets_every_night today request pid ci co g m :
  present request pid ci co g →
  m ∈ aggregatorCalls (POST today request).1 →
  aggregatorCalls (POST today request).1 = [m]
  ∧ resolvedDates (POST today request).1
    = format <$> nightDates
        (Z.to_nat (differenceInDays (parseISO co) (parseISO ci))) (parseISO ci)
  ∧ dom m = list_to_set (format <$> nightDates
        (Z.to_nat (differenceInDays (parseISO co) (parseISO ci))) (parseISO ci)).
Proof.
  intros H. paths_from H.
  all: try match goal with
           | Hl : nightLoop _ _ _ _ _ = (_, Next _) |- _ =>
               let HN := fresh "HN" in
               pose proof (nightLoop_Next _ _ _ _ _ _ _ Hl) as (HN & ?Hr & ?Ha & _);
               apply Nights_dom in HN; cbn in HN;
               rewrite dom_empty_L, (left_id_L ∅ (∪)) in HN; clear Hl
           end.
  all: loop_facts.
  all: observe; rewrite ?calendar_calls_resolved, ?calendar_calls_aggregator,
         ?Hr, ?Ha; cbn; rewrite ?app_nil_r.
  all: try by intros ?%elem_of_nil.
  all: intros ->%list_elem_of_singleton; done.
Qed.

(** *** The calendar of a date *)

Lemma findCalendar_first calendars (y m : Z) pre c post :
  calendars = pre ++ Some c :: post →
  (∀ c', Some c' ∈ pre → ¬ (year c' = y ∧ month c' = m)) →
  year c = y → month c = m →
  findCalendar calendars y m = Some c.
Proof.
  intros -> Hpre Hy Hm. unfold findCalendar.
  induction pre as [|[c'|] pre IH]; cbn.
  - rewrite Hy, Hm, !Z.eqb_refl. done.
  - destruct (Z.eqb_spec (year c') y), (Z.eqb_spec (month c') m); cbn;
      try (apply IH; intros c'' Hin; apply Hpre; by right).
    destruct (Hpre c'); [left|done].
  - apply IH. intros c'' Hin. apply Hpre. by right.
Qed.

Lemma findCalendar_none calendars (y m : Z) :
  (∀ c, Some c ∈ calendars → ¬ (year c = y ∧ month c = m)) →
  findCalendar calendars y m = None.
Proof.
  intros Hall. unfold findCalendar.
  induction calendars as [|[c|] calendars IH]; cbn; [done| |].
  - destruct (Z.eqb_spec (year c) y), (Z.eqb_spec (month c) m); cbn;
      try (apply IH; intros c' Hin; apply Hall; by right).
    destruct (Hall c); [left|done].
  - apply IH. intros c' Hin. apply Hall. by right.
Qed.

(** X17: the day entry of a date is looked up, by day of month, in the
    first calendar whose year and month are those of the date (months
    counted from 1), also when that calendar lacks the day and a later one
    has it; without such a calendar there is no day entry. *)
Theorem day_entry_from_first_calendar calendars d :
  (∀ pre c post,
     calendars = pre ++ Some c :: post →
     (∀ c', Some c' ∈ pre →
            ¬ (year c' = getFullYear d ∧ month c' = getMonth d + 1)) →
     year c = getFullYear d → month c = getMonth d + 1 →
     dayPriceOf calendars d = days c !! pretty (getDate d))
  ∧ ((∀ c, Some c ∈ calendars →
           ¬ (year c = getFullYear d ∧ month c = getMonth d + 1)) →
     dayPriceOf calendars d = None).
Proof.
  split.
  - intros pre c post Hcal Hpre Hy Hm. unfold dayPriceOf.
    by rewrite (findCalendar_first _ _ _ _ _ _ Hcal Hpre Hy Hm).
  - intros Hall. unfold dayPriceOf. by rewrite (findCalendar_none _ _ _ Hall).
Qed.
End Properties.

(** ** Runs on the in-memory collaborators *)

Section Runs.
Import InMemory.

(** [e] is run, and the result is kept as an equation on [e]. *)
Ltac evaluate e H :=
  let r := eval vm_compute in e in
  assert (e = r) as H by reflexivity.

Ltac distinct := apply (bool_decide_unpack _); vm_compute; exact I.
Ltac nth_of i := apply (list_elem_of_lookup_2 _ i); reflexivity.
Ltac no_null := intros Hnull%list_elem_of_singleton; discriminate Hnull.

(** The first scenario of the specification: four guests, two nights at
    100 without an override for four, a fee of 10 per extra guest and a
    cleaning fee of 20. *)
Example scenario_priced :
  dailyRatesOf (run [january] [] (request "2030-01-10" "2030-01-12" 4)).2
  = Some {[ "2030-01-10" := 120; "2030-01-11" := 120 ]}
  ∧ (accommodationTotal ∘ details)
      <$> pricingOf (run [january] [] (request "2030-01-10" "2030-01-12" 4)).2
    = Some 240
  ∧ (total ∘ details)
      <$> pricingOf (run [january] [] (request "2030-01-10" "2030-01-12" 4)).2
    = Some 260.
Proof. split_and!; vm_compute; reflexivity. Qed.

(** The second scenario: the second of two nights asks for three. *)
Example scenario_minimum_stay :
  (run [january] [] (request "2030-01-12" "2030-01-14" 4)).2
  = json (MinimumStayBody 3 3 "availability").
Proof. reflexivity. Qed.

(** C5, as stated, fails: a request with [checkIn ≥ checkOut] whose
    check-in is before today gets the [PastCheckIn] failure. *)
Lemma invalid_date_range_counterexample :
  dateGe (parseISO "2029-06-10") (parseISO "2029-06-05") = true
  ∧ (run [january] [] (request "2029-06-10" "2029-06-05" 2)).2 = PastCheckIn
  ∧ (run [january] [] (request "2029-06-10" "2029-06-05" 2)).2 ≠ InvalidDateRange.
Proof. split_and!; [reflexivity | reflexivity | discriminate]. Qed.

Lemma invalid_date_range_after_validation_witness :
  run [january] [] (request "2030-01-12" "2030-01-10" 2) = ([], InvalidDateRange).
Proof.
  apply (invalid_date_range_after_validation (DB := database properties [january])
           (AV := availability "availability" [])
           today _ "villa" "2030-01-12" "2030-01-10" 2).
  - repeat split.
  - reflexivity.
  - reflexivity.
Defined.

Lemma unavailable_short_circuit_witness :
  ∃ t r,
    run [january] blocked (request "2030-01-10" "2030-01-12" 2) = (t, r)
    ∧ r = json (UnavailableDatesBody blocked "availability")
    ∧ available (body r) = Some false
    ∧ reason (body r) = Some "unavailable_dates"
    ∧ calendarFetches t = [] ∧ resolvedDates t = [] ∧ aggregatorCalls t = [].
Proof.
  apply (unavailable_short_circuit (DB := database properties [january])
           (AV := availability "availability" blocked)
           today _ "villa" "2030-01-10" "2030-01-12" 2 villa
           {| isAvailable := false; unavailableDates := blocked;
              source := "availability" |}).
  - repeat split.
  - reflexivity.
Defined.

Lemma price_data_unavailable_witness :
  (∃ t, run [january] [] (request "2030-01-30" "2030-02-02" 2)
        = (t, PriceDataUnavailable)
        ∧ resolvedDates t = [])
  ∧ (∃ t, run [january] [] (request "2030-01-13" "2030-01-16" 2)
          = (t, DayPriceUnavailable "2030-01-14")
          ∧ resolvedDates t = ["2030-01-13"]).
Proof.
  split.
  - apply (proj1 (price_data_unavailable (DB := database properties [january])
              (AV := availability "availability" [])
              today (request "2030-01-30" "2030-02-02" 2)
              "villa" "2030-01-30" "2030-02-02" 2 villa free
              [ {| ym_year := 2030; ym_month := 1 |};
                {| ym_year := 2030; ym_month := 2 |} ]
              [Some january; None] ltac:(repeat split))).
    nth_of 1%nat.
  - apply (proj2 (price_data_unavailable (DB := database properties [january])
              (AV := availability "availability" [])
              today (request "2030-01-13" "2030-01-16" 2)
              "villa" "2030-01-13" "2030-01-16" 2 villa free
              [ {| ym_year := 2030; ym_month := 1 |} ]
              [Some january] ltac:(repeat split))
             ltac:(no_null)
             [parseISO "2030-01-13"] (parseISO "2030-01-14") [parseISO "2030-01-15"]).
    + vm_compute. reflexivity.
    + repeat constructor. by eexists.
    + vm_compute. reflexivity.
Defined.

Lemma base_price_within_occupancy_witness :
  dailyRatesOf (run [january] [] (request "2030-01-10" "2030-01-12" 2)).2
    ≫= (.!! "2030-01-11") = Some 100.
Proof.
  evaluate (run [january] [] (request "2030-01-10" "2030-01-12" 2)) Hrun.
  rewrite Hrun.
  refine (proj2 (proj2 (base_price_within_occupancy
                   (DB := database properties [january])
                   (AV := availability "availability" [])
                   villa 2 (day 100 (Some {[ "2" := 90; "3" := 150 ]}) None) _))
            today (request "2030-01-10" "2030-01-12" 2)
            "villa" "2030-01-10" "2030-01-12" free
            [ {| ym_year := 2030; ym_month := 1 |} ] [Some january]
            _ _ _ (parseISO "2030-01-11") _ Hrun _ _ _).
  - vm_compute. discriminate.
  - repeat split.
  - distinct.
  - nth_of 1%nat.
  - vm_compute. reflexivity.
Defined.

(** C1, as stated, fails: on the 12th the entry for three guests exists and
    is 0, and the price resolved for three guests is the formula's 110. *)
Lemma exact_override_zero_counterexample :
  dayPriceOf [Some january] (parseISO "2030-01-12")
  = Some (day 100 (Some {[ "3" := 0 ]}) None)
  ∧ baseOccupancy villa < 3
  ∧ prices (day 100 (Some {[ "3" := 0 ]}) None) ≫= (.!! pretty 3) = Some 0
  ∧ dailyRatesOf (run [january] [] (request "2030-01-12" "2030-01-13" 3)).2
      ≫= (.!! "2030-01-12") = Some 110
  ∧ dailyRatesOf (run [january] [] (request "2030-01-12" "2030-01-13" 3)).2
      ≫= (.!! "2030-01-12")
    ≠ prices (day 100 (Some {[ "3" := 0 ]}) None) ≫= (.!! pretty 3).
Proof.
  split_and!; [vm_compute; reflexivity | done | vm_compute; reflexivity
              | vm_compute; reflexivity | vm_compute; discriminate].
Qed.

Lemma exact_override_applies_witness :
  dailyRatesOf (run [january] [] (request "2030-01-10" "2030-01-12" 3)).2
    ≫= (.!! "2030-01-11") = Some 150.
Proof.
  evaluate (run [january] [] (request "2030-01-10" "2030-01-12" 3)) Hrun.
  rewrite Hrun.
  refine (proj2 (proj2 (exact_override_applies
                   (DB := database properties [january])
                   (AV := availability "availability" [])
                   villa 3 (day 100 (Some {[ "2" := 90; "3" := 150 ]}) None) 150 _ _ _))
            today (request "2030-01-10" "2030-01-12" 3)
            "villa" "2030-01-10" "2030-01-12" free
            [ {| ym_year := 2030; ym_month := 1 |} ] [Some january]
            _ _ _ (parseISO "2030-01-11") _ Hrun _ _ _).
  - reflexivity.
  - vm_compute. reflexivity.
  - discriminate.
  - repeat split.
  - distinct.
  - nth_of 1%nat.
  - vm_compute. reflexivity.
Defined.

Lemma extra_guest_fee_fallback_witness :
  dailyRatesOf (run [january] [] (request "2030-01-10" "2030-01-12" 4)).2
    ≫= (.!! "2030-01-11") = Some 120.
Proof.
  evaluate (run [january] [] (request "2030-01-10" "2030-01-12" 4)) Hrun.
  rewrite Hrun.
  refine (proj2 (proj2 (extra_guest_fee_fallback
                   (DB := database properties [january])
                   (AV := availability "availability" [])
                   villa 4 (day 100 (Some {[ "2" := 90; "3" := 150 ]}) None) _ _))
            today (request "2030-01-10" "2030-01-12" 4)
            "villa" "2030-01-10" "2030-01-12" free
            [ {| ym_year := 2030; ym_month := 1 |} ] [Some january]
            _ _ _ (parseISO "2030-01-11") _ Hrun _ _ _).
  - reflexivity.
  - vm_compute. reflexivity.
  - repeat split.
  - distinct.
  - nth_of 1%nat.
  - vm_compute. reflexivity.
Defined.

Lemma zero_override_falls_through_witness :
  dailyRatesOf (run [january] [] (request "2030-01-11" "2030-01-13" 3)).2
    ≫= (.!! "2030-01-12") = Some 110.
Proof.
  evaluate (run [january] [] (request "2030-01-11" "2030-01-13" 3)) Hrun.
  rewrite Hrun.
  refine (proj2 (proj2 (zero_override_falls_through
                   (DB := database properties [january])
                   (AV := availability "availability" [])
                   villa 3 (day 100 (Some {[ "3" := 0 ]}) None) _ _))
            today (request "2030-01-11" "2030-01-13" 3)
            "villa" "2030-01-11" "2030-01-13" free
            [ {| ym_year := 2030; ym_month := 1 |} ] [Some january]
            _ _ _ (parseISO "2030-01-12") _ Hrun _ _ _).
  - reflexivity.
  - vm_compute. reflexivity.
  - repeat split.
  - distinct.
  - nth_of 1%nat.
  - vm_compute. reflexivity.
Defined.

Lemma effective_minimum_stay_is_maximum_witness :
  ∃ t st',
    nightLoop villa 2 [Some january] 4 (initialState villa (parseISO "2030-01-10"))
    = (t, Next st')
    ∧ st_minimumStay st' = 3.
Proof.
  destruct (effective_minimum_stay_is_maximum villa 2 [Some january] 4
              (parseISO "2030-01-10")) as (t & st' & Hloop & Hmax & _).
  - cbn [nightDates]. repeat constructor; by eexists.
  - exists t, st'. split; [exact Hloop|]. rewrite Hmax. vm_compute. reflexivity.
Defined.

Lemma minimum_stay_rejected_witness :
  ∃ t,
    run [january] [] (request "2030-01-12" "2030-01-14" 2)
    = (t, json (MinimumStayBody 3 3 "availability"))
    ∧ resolvedDates t = ["2030-01-12"; "2030-01-13"]
    ∧ aggregatorCalls t = [].
Proof.
  evaluate (nightLoop villa 2 [Some january] 2
              (initialState villa (parseISO "2030-01-12"))) Hloop.
  destruct (minimum_stay_rejected (DB := database properties [january])
              (AV := availability "availability" [])
              today (request "2030-01-12" "2030-01-14" 2)
              "villa" "2030-01-12" "2030-01-14" 2 villa free
              [ {| ym_year := 2030; ym_month := 1 |} ] [Some january] _ _
              ltac:(repeat split) ltac:(no_null) Hloop ltac:(reflexivity))
    as (t & Hrun & _ & Hres & _ & Hagg).
  exists t. split_and!; [exact Hrun | exact Hres | exact Hagg].
Defined.

Lemma source_carried_witness :
  metaSourceOf (body (run [january] blocked (request "2030-01-10" "2030-01-12" 2)).2)
  = Some "availability".
Proof.
  evaluate (run [january] blocked (request "2030-01-10" "2030-01-12" 2)) Hrun.
  destruct (source_carried (DB := database properties [january])
              (AV := availability "availability" blocked) today _ _ _ Hrun)
    as (pid & ci & co & g & property & availabilityResult & Hchecked & Hsource).
  - by eexists.
  - destruct Hchecked as (_ & _ & Hanswer). cbn in Hanswer.
    injection Hanswer as <-. rewrite Hrun. exact Hsource.
Defined.
(** *** Runs for the further properties *)

Lemma missing_parameter_exactly_witness :
  run [january] [] noGuests = ([], MissingParameter).
Proof.
  apply (proj1 (missing_parameter_exactly (DB := database properties [january])
                  (AV := availability "availability" []) today noGuests)).
  intros (pid & ci & co & g & _ & _ & _ & Hg & _ & _ & _ & Ht).
  injection Hg as <-. discriminate Ht.
Defined.

Lemma past_check_in_first_witness :
  run [january] [] (request "2029-06-10" "2029-06-12" 2) = ([], PastCheckIn).
Proof.
  apply (past_check_in_first (DB := database properties [january])
           (AV := availability "availability" [])
           today _ "villa" "2029-06-10" "2029-06-12" 2).
  - repeat split.
  - reflexivity.
Defined.

Lemma property_lookup_failure_witness :
  POST (DB := brokenDatabase) (AV := availability "availability" []) today
    (request "2030-01-10" "2030-01-12" 2)
  = ([CallGetProperty "villa"; ConsoleError "connection lost"],
     InternalFailure "connection lost").
Proof.
  apply (property_lookup_failure (DB := brokenDatabase)
           (AV := availability "availability" [])
           today _ "villa" "2030-01-10" "2030-01-12" 2).
  - repeat split.
  - reflexivity.
Defined.

Lemma availability_failure_witness :
  ∃ t, POST (DB := database properties [january]) (AV := brokenAvailability) today
         (request "2030-01-10" "2030-01-12" 2)
       = (t, InternalFailure "service down")
       ∧ calendarFetches t = [].
Proof.
  destruct (availability_failure (DB := database properties [january])
              (AV := brokenAvailability)
              today (request "2030-01-10" "2030-01-12" 2)
              "villa" "2030-01-10" "2030-01-12" 2 villa "service down")
    as (t & Hrun & _ & _ & Hc & _).
  - repeat split.
  - reflexivity.
  - reflexivity.
  - by exists t.
Defined.


Lemma aggregator_failure_witness :
  ∃ t, POST (PC := Failing.overflow) (DB := Failing.houseDatabase)
         (AV := availability "availability" []) today
         (request "2030-01-10" "2030-01-12" 2)
       = (t, InternalFailure "overflow")
       ∧ resolvedDates t = ["2030-01-10"; "2030-01-11"].
Proof.
  evaluate (nightLoop (PC := Failing.overflow) Failing.house 2 [Some january] 2
              (initialState Failing.house (parseISO "2030-01-10"))) Hloop.
  destruct (aggregator_failure (PC := Failing.overflow)
              (DB := Failing.houseDatabase)
              (AV := availability "availability" [])
              today (request "2030-01-10" "2030-01-12" 2)
              "villa" "2030-01-10" "2030-01-12" 2 Failing.house free
              [ {| ym_year := 2030; ym_month := 1 |} ] [Some january] _ _ "overflow"
              ltac:(repeat split) ltac:(no_null) Hloop)
    as (t & Hrun & _ & _ & Hr).
  - vm_compute. discriminate.
  - reflexivity.
  - by exists t.
Defined.

Lemma priced_response_witness :
  ∃ t pricing,
    run [january] [] (request "2030-01-10" "2030-01-12" 4)
    = (t, json (AvailableBody pricing "availability"))
    ∧ currency pricing = "EUR"
    ∧ aggregatorCalls t = [dailyRates pricing].
Proof.
  evaluate (nightLoop villa 4 [Some january] 2
              (initialState villa (parseISO "2030-01-10"))) Hloop.
  destruct (priced_response (DB := database properties [january])
              (AV := availability "availability" [])
              today (request "2030-01-10" "2030-01-12" 4)
              "villa" "2030-01-10" "2030-01-12" 4 villa free
              [ {| ym_year := 2030; ym_month := 1 |} ] [Some january] _ _
              {| subtotal := 260; accommodationTotal := 240; total := 260;
                 numberOfNights := 2 |}
              ltac:(repeat split) ltac:(no_null) Hloop)
    as (t & Hrun & _ & Ha & _).
  - vm_compute. discriminate.
  - reflexivity.
  - eexists t, _. split; [exact Hrun|]. split; [reflexivity | exact Ha].
Defined.

Lemma daily_rates_keys_witness :
  ∃ t pricing,
    run [january] [] (request "2030-01-10" "2030-01-12" 4)
    = (t, json (AvailableBody pricing "availability"))
    ∧ size (dailyRates pricing) = 2%nat.
Proof.
  evaluate (run [january] [] (request "2030-01-10" "2030-01-12" 4)) Hrun.
  eexists _, _. split; [exact Hrun|].
  refine (proj2 (daily_rates_keys (DB := database properties [january])
                   (AV := availability "availability" [])
                   today (request "2030-01-10" "2030-01-12" 4)
                   "villa" "2030-01-10" "2030-01-12" 4 villa free
                   [ {| ym_year := 2030; ym_month := 1 |} ] [Some january]
                   _ _ _ _ Hrun) _).
  - repeat split.
  - distinct.
Defined.

Lemma no_full_day_witness :
  ∃ t, POST (DF := Timed.stamps)
         (DB := Timed.stampDatabase properties [january])
         (CG := Timed.stampMonths) (AV := Timed.stampAvailability)
         Timed.midnight (request "2030-01-10T10:00" "2030-01-10T20:00" 2)
       = (t, json (MinimumStayBody 1 1 "availability"))
       ∧ calendarFetches t = [(2030, 1)]
       ∧ resolvedDates t = [].
Proof.
  destruct (no_full_day (DF := Timed.stamps)
              (DB := Timed.stampDatabase properties [january])
              (CG := Timed.stampMonths) (AV := Timed.stampAvailability)
              Timed.midnight (request "2030-01-10T10:00" "2030-01-10T20:00" 2)
              "villa" "2030-01-10T10:00" "2030-01-10T20:00" 2 villa Timed.stampFree
              [ {| ym_year := 2030; ym_month := 1 |} ] [Some january])
    as (t & Hrun & Hc & Hr & _).
  - repeat split.
  - no_null.
  - vm_compute. discriminate.
  - vm_compute. reflexivity.
  - by exists t.
Defined.

Lemma minimum_stay_decision_witness :
  reason (body (run [january] [] (request "2030-01-12" "2030-01-14" 2)).2)
  = Some "minimum_stay".
Proof.
  evaluate (nightLoop villa 2 [Some january] 2
              (initialState villa (parseISO "2030-01-12"))) Hloop.
  apply (proj2 (minimum_stay_decision (DB := database properties [january])
                  (AV := availability "availability" [])
                  today (request "2030-01-12" "2030-01-14" 2)
                  "villa" "2030-01-12" "2030-01-14" 2 villa free
                  [ {| ym_year := 2030; ym_month := 1 |} ] [Some january] _ _
                  ltac:(repeat split) ltac:(no_null) Hloop)).
  vm_compute. reflexivity.
Defined.

Lemma calendars_fetched_once_witness :
  calendarFetches (run [january] [] (request "2030-01-30" "2030-02-02" 2)).1
  = [(2030, 1); (2030, 2)].
Proof.
  apply (calendars_fetched_once (DB := database properties [january])
           (AV := availability "availability" [])
           today (request "2030-01-30" "2030-02-02" 2)
           "villa" "2030-01-30" "2030-02-02" 2 villa free
           [ {| ym_year := 2030; ym_month := 1 |};
             {| ym_year := 2030; ym_month := 2 |} ]).
  - repeat split.
  - reflexivity.
  - reflexivity.
Defined.


Lemma nights_resolved_in_order_witness :
  ∃ k, (k ≤ 3)%nat
    ∧ resolvedDates (run [january] [] (request "2030-01-13" "2030-01-16" 2)).1
      = format <$> take k (nightDates 3 (parseISO "2030-01-13")).
Proof.
  apply (nights_resolved_in_order (DB := database properties [january])
           (AV := availability "availability" [])
           today (request "2030-01-13" "2030-01-16" 2)
           "villa" "2030-01-13" "2030-01-16" 2).
  repeat split.
Defined.

Lemma aggregator_gets_every_night_witness :
  aggregatorCalls (run [january] [] (request "2030-01-10" "2030-01-12" 4)).1
  = [ {[ "2030-01-10" := 120; "2030-01-11" := 120 ]} ]
  ∧ resolvedDates (run [january] [] (request "2030-01-10" "2030-01-12" 4)).1
    = ["2030-01-10"; "2030-01-11"].
Proof.
  destruct (aggregator_gets_every_night (DB := database properties [january])
              (AV := availability "availability" [])
              today (request "2030-01-10" "2030-01-12" 4)
              "villa" "2030-01-10" "2030-01-12" 4
              {[ "2030-01-10" := 120; "2030-01-11" := 120 ]})
    as (Ha & Hr & _).
  - repeat split.
  - evaluate (aggregatorCalls
                (run [january] [] (request "2030-01-10" "2030-01-12" 4)).1) Hcalls.
    unfold run in Hcalls. rewrite Hcalls. apply list_elem_of_singleton. reflexivity.
  - split; [exact Ha | exact Hr].
Defined.

Lemma day_entry_from_first_calendar_witness :
  dayPriceOf [Some emptyJanuary; Some january] (parseISO "2030-01-10") = None
  ∧ dayPriceOf [Some january; Some emptyJanuary] (parseISO "2030-01-10")
    = Some (day 100 None None).
Proof.
  split.
  - rewrite (proj1 (day_entry_from_first_calendar
                      [Some emptyJanuary; Some january] (parseISO "2030-01-10"))
               [] emptyJanuary [Some january] eq_refl).
    + reflexivity.
    + by intros c' ?%elem_of_nil.
    + reflexivity.
    + reflexivity.
  - rewrite (proj1 (day_entry_from_first_calendar
                      [Some january; Some emptyJanuary] (parseISO "2030-01-10"))
               [] january [Some emptyJanuary] eq_refl).
    + reflexivity.
    + by intros c' ?%elem_of_nil.
    + reflexivity.
    + reflexivity.
Defined.
End Runs.
